(** * LEDAPS driver script [do_ledaps.py]: ancillary check and pipeline control

    A shallow embedding of [ledaps/ledapsSrc/scripts/do_ledaps.py]:
    [isLeapYear], [Ledaps.findAncillary] and [Ledaps.runLedaps].

    Python integers are [Z]; Python 2 byte strings are [string].  The script
    talks to the operating system (environment, clock, file system, working
    directory, child processes, logging); those calls are threaded through a
    small state-and-exception monad over a [World].  What the operating
    system answers is not decided by the script, so it is taken from an
    interface [OS] over which every statement is quantified.

    Two calls can leave the script through an exception: the option parser
    ([SystemExit]) and [os.chdir] ([OSError]).  The other calls are taken
    to answer: [os.path.isfile] and [os.access] answer [False] rather than
    raise, and a command that cannot be started comes back from the shell
    with a status like any other.  The working directory is the string
    last passed to a successful [os.chdir], which is what [os.getcwd]
    returns for the absolute paths the script uses. *)

From Stdlib Require Import ZArith String Ascii List Bool Lia.
From Stdlib Require Import DecimalString DecimalPos.
Import ListNotations.

Open Scope string_scope.
Open Scope Z_scope.

(** ** Python built-ins used by the script *)

Module Py.

(** [str(n)] and ["%d" % n] for an integer [n]. *)
Definition str (n : Z) : string := NilZero.string_of_int (Z.to_int n).

(** [s[0:n]]: the first [n] characters, or all of [s] when it is shorter. *)
Definition slice_to (n : nat) (s : string) : string := substring 0 n s.

(** [s[i:]]. *)
Definition slice_from (i : nat) (s : string) : string :=
  substring i (String.length s) s.

(** [x in l] for a list of strings. *)
Definition str_in (x : string) (l : list string) : bool :=
  existsb (String.eqb x) l.

(** [range(lo, hi)]. *)
Definition range (lo hi : Z) : list Z :=
  map (fun i => lo + Z.of_nat i) (seq 0 (Z.to_nat (hi - lo))).

(** [s.rfind(c)]: index of the last occurrence of [c], [-1] if none. *)
Fixpoint rfind (c : ascii) (s : string) : Z :=
  match s with
  | EmptyString => -1
  | String a r =>
      let i := rfind c r in
      if 0 <=? i then i + 1
      else if Ascii.eqb a c then 0 else -1
  end.

Definition endswith (suffix s : string) : bool :=
  (String.length suffix <=? String.length s)%nat
  && String.eqb
       (substring (String.length s - String.length suffix)
                  (String.length suffix) s)
       suffix.

Definition LF : string := String (ascii_of_nat 10) EmptyString.

(** [re.sub('\.xml$', '', s)].  Without [re.MULTILINE], [$] matches at the
    end of the string and just before a newline that ends the string, so
    the pattern has at most one match. *)
Definition re_sub_xml (s : string) : string :=
  if endswith ".xml" s then slice_to (String.length s - 4) s
  else if endswith (".xml" ++ LF) s
       then slice_to (String.length s - 5) s ++ LF
       else s.

(** [s.rstrip('/')]. *)
Fixpoint rstrip_slash (s : string) : string :=
  match s with
  | EmptyString => EmptyString
  | String a r =>
      match rstrip_slash r with
      | EmptyString => if Ascii.eqb a "/" then EmptyString
                       else String a EmptyString
      | r' => String a r'
      end
  end.

Fixpoint all_slash (s : string) : bool :=
  match s with
  | EmptyString => true
  | String a r => Ascii.eqb a "/" && all_slash r
  end.

(** [os.path.basename] (posixpath): what follows the last ['/']. *)
Definition basename (p : string) : string :=
  let i := rfind "/" p + 1 in
  slice_from (Z.to_nat i) p.

(** [os.path.dirname] (posixpath). *)
Definition dirname (p : string) : string :=
  let i := rfind "/" p + 1 in
  let head := slice_to (Z.to_nat i) p in
  if negb (String.eqb head "") && negb (all_slash head)
  then rstrip_slash head else head.

End Py.

(** ** The operating system, as the script sees it *)

(** [datetime.datetime.now()]: only [.year] and [.timetuple().tm_yday]
    are read. *)
Record datetime : Type := { year_of : Z; tm_yday : Z }.

(** Exceptions that leave a function of the script. *)
Inductive exn : Type := SystemExit | OSError.

(** What the operating system answers.  Paths are resolved against the
    working directory of the process, the second argument of the file-system
    queries.  A child process is run by [popen]: it yields the wait status,
    the captured output and the state it leaves behind; it has a working
    directory of its own and cannot move its parent's. *)
Record OS : Type := {
  Env : Type;
  environ_get : Env -> string -> option string;
  now : Env -> datetime;
  isfile : Env -> string -> string -> bool;
  access_W_OK : Env -> string -> string -> bool;
  abspath : string -> string -> string;
  chdir_ok : Env -> string -> string -> bool;
  popen : Env -> string -> string -> Z * string * Env;
  parse_args : Env -> option (option string * option string)
}.

Inductive level : Type := DEBUG | INFO | LOG_ERROR.

(** How a call ends: with a value, or with an exception going up. *)
Inductive outcome (A : Type) : Type :=
| Return (a : A)
| Raise (e : exn).
Arguments Return {A} a.
Arguments Raise {A} e.

(** The state the script runs in: the machine around it, the working
    directory of the process, and two histories: [invoked] lists, in
    order, every command string handed to [commands.getstatusoutput] with
    the status it came back with, and [logged] is the log. *)
Record World (os : OS) : Type := {
  env : Env os;
  cwd : string;
  invoked : list (string * Z);
  logged : list (level * string)
}.
Arguments env {os} _.
Arguments cwd {os} _.
Arguments invoked {os} _.
Arguments logged {os} _.

(** ** A small machine to run the script on

    A machine with a fixed set of regular files, where every directory is
    writable and can be entered, and where the wait status of a child
    process is a function of its command string. *)

Module Sim.

Record machine : Type := {
  files : list string;
  anc_path : option string;
  today : datetime;
  wait_status : string -> Z;
  argv_options : option (option string * option string)
}.

Definition os : OS := {|
  Env := machine;
  environ_get := fun m name =>
    if String.eqb name "ANC_PATH" then anc_path m else None;
  now := today;
  isfile := fun m _ path => Py.str_in path (files m);
  access_W_OK := fun _ _ _ => true;
  abspath := fun cwd path =>
    if Py.slice_to 1 path =? "/" then path else cwd ++ "/" ++ path;
  chdir_ok := fun _ _ _ => true;
  popen := fun m _ cmd => (wait_status m cmd, "", m);
  parse_args := argv_options
|}%string.

Definition today_2016 : datetime := {| year_of := 2016; tm_yday := 251 |}.

(** The ancillary files of day 45 of 2013, and three scene files. *)
Definition sample_files : list string :=
  [ "/anc/REANALYSIS/RE_2013/REANALYSIS_2013045.hdf";
    "/anc/EP_TOMS/ozone_2013/TOMS_2013045.hdf";
    "/data/LT50290302007097PAC01.xml";
    "/data/LE07_L1TP_029030_20070407_20160912_01_T1.xml";
    "/data/XX1_foo.xml" ].

Definition machine_of (status : string -> Z) : machine := {|
  files := sample_files;
  anc_path := Some "/anc";
  today := today_2016;
  wait_status := status;
  argv_options := Some (Some "/data/LT50290302007097PAC01.xml", None)
|}.

Definition all_succeed : string -> Z := fun _ => 0.

(** [lndcal] exits with code 1, every other program with code 0. *)
Definition lndcal_fails : string -> Z :=
  fun cmd => if String.eqb (Py.slice_to 7 cmd) "lndcal " then 256 else 0.

(** A fresh process in the directory [dir]. *)
Definition world (m : machine) (dir : string) : World os :=
  {| env := (m : Env os); cwd := dir; invoked := []; logged := [] |}.

(** [lndpm] is killed by signal 9, every other program exits with code 0. *)
Definition lndpm_killed : string -> Z :=
  fun cmd => if String.eqb (Py.slice_to 6 cmd) "lndpm " then 9 else 0.

(** A machine without any file. *)
Definition no_files : machine := {|
  files := [];
  anc_path := Some "/anc";
  today := today_2016;
  wait_status := all_succeed;
  argv_options := None
|}.

(** A machine whose one file has a two-letter name. *)
Definition short_name : machine := {|
  files := ["/data/LT"];
  anc_path := None;
  today := today_2016;
  wait_status := all_succeed;
  argv_options := None
|}.

End Sim.

Section Script.

Variable os : OS.

Definition M (A : Type) : Type := World os -> outcome A * World os.

Definition ret {A} (a : A) : M A := fun w => (Return a, w).

Definition raise {A} (e : exn) : M A := fun w => (Raise e, w).

Definition bind {A B} (m : M A) (k : A -> M B) : M B :=
  fun w =>
    match m w with
    | (Return a, w') => k a w'
    | (Raise e, w') => (Raise e, w')
    end.

Notation "x <- m ;; k" := (bind m (fun x => k))
  (at level 61, m at next level, right associativity).
Notation "m ;; k" := (bind m (fun _ => k))
  (at level 61, right associativity).

(** *** Primitive actions *)

Definition logger (lvl : level) (msg : string) : M unit :=
  fun w => (Return tt,
            {| env := env w; cwd := cwd w; invoked := invoked w;
               logged := (logged w ++ [(lvl, msg)])%list |}).

Definition os_environ_get (name : string) : M (option string) :=
  fun w => (Return (environ_get os (env w) name), w).

Definition datetime_now : M datetime :=
  fun w => (Return (now os (env w)), w).

Definition os_path_isfile (path : string) : M bool :=
  fun w => (Return (isfile os (env w) (cwd w) path), w).

Definition os_access_W_OK (path : string) : M bool :=
  fun w => (Return (access_W_OK os (env w) (cwd w) path), w).

Definition os_getcwd : M string := fun w => (Return (cwd w), w).

Definition os_path_abspath (path : string) : M string :=
  fun w => (Return (abspath os (cwd w) path), w).

(** [os.chdir]: raises [OSError] when the directory cannot be entered. *)
Definition os_chdir (path : string) : M unit :=
  fun w =>
    if chdir_ok os (env w) (cwd w) path
    then (Return tt,
          {| env := env w; cwd := path; invoked := invoked w;
             logged := logged w |})
    else (Raise OSError, w).

(** [commands.getstatusoutput]. *)
Definition commands_getstatusoutput (cmd : string) : M (Z * string) :=
  fun w =>
    let '(status, output, e') := popen os (env w) (cwd w) cmd in
    (Return (status, output),
     {| env := e'; cwd := cwd w;
        invoked := (invoked w ++ [(cmd, status)])%list;
        logged := logged w |}).

(** [OptionParser.parse_args]: leaves through [SystemExit] on a malformed
    command line or [--help]. *)
Definition parser_parse_args : M (option string * option string) :=
  fun w =>
    match parse_args os (env w) with
    | Some opts => (Return opts, w)
    | None => (Raise SystemExit, w)
    end.

(** [OptionParser.error]: prints the usage and exits. *)
Definition parser_error {A} (msg : string) : M A := raise SystemExit.

(** [for x in xs: body], the loop state passed along. *)
Fixpoint for_in {A S} (xs : list A) (body : A -> S -> M S) (s : S) : M S :=
  match xs with
  | [] => ret s
  | x :: xs' => s' <- body x s ;; for_in xs' body s'
  end.

(** ** The script *)

Definition ERROR : Z := 1.
Definition SUCCESS : Z := 0.

Definition isLeapYear (year : Z) : bool :=
  if year mod 4 =? 0 then
    if year mod 100 =? 0 then
      if year mod 400 =? 0 then true
      else false
    else true
  else false.

(** [dayofyear]: the day padded with zeros (lines 135-140). *)
Definition dayofyear (currdoy : Z) : string :=
  if currdoy <? 10 then "00" ++ Py.str currdoy
  else if (9 <? currdoy) && (currdoy <? 100) then "0" ++ Py.str currdoy
  else Py.str currdoy.

Definition ncepFile (ancdir : string) (year : Z) (dayofyear : string) : string :=
  ancdir ++ "/REANALYSIS/RE_" ++ Py.str year ++ "/REANALYSIS_"
         ++ Py.str year ++ dayofyear ++ ".hdf".

Definition tomsFile (ancdir : string) (year : Z) (dayofyear : string) : string :=
  ancdir ++ "/EP_TOMS/ozone_" ++ Py.str year ++ "/TOMS_"
         ++ Py.str year ++ dayofyear ++ ".hdf".

(** The default of the [doy] parameter. *)
Definition doy_default : Z := -99.

Definition findAncillary (year doy : Z) : M (option (list bool)) :=
  ancdir <- os_environ_get "ANC_PATH" ;;
  match ancdir with
  | None =>
      logger LOG_ERROR "ANC_PATH environment variable not set... exiting" ;;
      ret None
  | Some ancdir =>
      ndays <- (if doy =? -99 then
                  now <- datetime_now ;;
                  if year =? year_of now then ret (tm_yday now)
                  else if isLeapYear year then ret 366 else ret 365
                else ret 1) ;;
      doyList <-
        for_in (Py.range 1 (ndays + 1))
          (fun currdoy doyList =>
             let currdoy := if negb (doy =? -99) then doy else currdoy in
             let dayofyear := dayofyear currdoy in
             ncep <- os_path_isfile (ncepFile ancdir year dayofyear) ;;
             both <- (if ncep
                      then os_path_isfile (tomsFile ancdir year dayofyear)
                      else ret false) ;;
             if both then ret (doyList ++ [true])%list
             else ret (doyList ++ [false])%list)
          [] ;;
      ret (Some doyList)
  end.

(** A call [findAncillary(year)] or [findAncillary(year, doy)]: an omitted
    argument is bound to the default. *)
Definition findAncillary_call (year : Z) (doy : option Z)
  : M (option (list bool)) :=
  findAncillary year (match doy with Some d => d | None => doy_default end).

(** The scene name prefixes (lines 246-247). *)
Definition prefixes_old : list string := ["LT4"; "LT5"; "LE7"].
Definition prefixes_collection : list string := ["LT04"; "LT05"; "LE07"].

(** Lines 184-209: with no [xmlfile] argument both values are taken from
    the command line, [process_sr] defaulting to ["True"]. *)
Definition command_line_args (xmlfile : option string) (process_sr : string)
  : M (string * string) :=
  match xmlfile with
  | None =>
      opts <- parser_parse_args ;;
      let '(options_xmlfile, options_process_sr) := opts in
      match options_xmlfile with
      | None => parser_error "missing xmlfile command-line argument"
      | Some xmlfile =>
          match options_process_sr with
          | None => ret (xmlfile, "True")
          | Some process_sr => ret (xmlfile, process_sr)
          end
      end
  | Some xmlfile => ret (xmlfile, process_sr)
  end.

(** One external stage, the block repeated at lines 272-279, 292-298,
    303-309, 315-322 and 327-334: run the command, log its output, and
    either restore the directory and return [ERROR] or go on with [rest]. *)
Definition run_stage (cmdstr errmsg mydir : string) (rest : M Z) : M Z :=
  so <- commands_getstatusoutput cmdstr ;;
  let '(status, output) := so in
  logger INFO output ;;
  let exit_code := Z.shiftr status 8 in
  if negb (exit_code =? 0) then
    logger LOG_ERROR errmsg ;;
    os_chdir mydir ;;
    ret ERROR
  else rest.

(** Lines 311-339: the stages that depend on [process_sr], and the
    successful end. *)
Definition run_sr (xml process_sr process_collection_opt_str mydir : string)
                  (processing_collection : bool) : M Z :=
  let completion :=
    os_chdir mydir ;;
    logger INFO "Completion of LEDAPS." ;;
    ret SUCCESS in
  if String.eqb process_sr "True" then
    run_stage ("lndsr --pfile lndsr." ++ xml ++ ".txt "
                 ++ process_collection_opt_str)
      "Error running lndsr.  Processing will terminate." mydir
      (if negb processing_collection then
         run_stage ("lndsrbm.py -f lndsr." ++ xml ++ ".txt")
           "Error running lndsrbm.  Processing will terminate." mydir
           completion
       else completion)
  else completion.

(** Lines 263-339: the stages, once the scene is classified. *)
Definition run_stages (base_xmlfile xml process_sr mydir : string)
                      (processing_collection : bool) : M Z :=
  let process_collection_opt_str :=
    if processing_collection then "--process_collection" else "" in
  (if processing_collection
   then run_stage ("create_landsat_angle_bands --xml " ++ base_xmlfile)
          "Error running create_landsat_angle_bands.  Processing will terminate."
          mydir
   else fun rest => rest)
    (let process_sr_opt_str :=
       if String.eqb process_sr "True" then "--process_sr=true"
       else "--process_sr=false" in
     let cmdstr := "lndpm --xml " ++ base_xmlfile ++ " " ++ process_sr_opt_str in
     logger DEBUG ("lndpm command: " ++ cmdstr) ;;
     run_stage cmdstr "Error running lndpm.  Processing will terminate." mydir
       (run_stage ("lndcal --pfile lndcal." ++ xml ++ ".txt "
                     ++ process_collection_opt_str)
          "Error running lndcal.  Processing will terminate." mydir
          (run_sr xml process_sr process_collection_opt_str mydir
                  processing_collection))).

(** Lines 245-261: the naming convention decides [processing_collection];
    a name of neither convention ends the run. *)
Definition classify_and_run (base_xmlfile xml process_sr mydir : string)
  : M Z :=
  if Py.str_in (Py.slice_to 3 base_xmlfile) prefixes_old then
    logger DEBUG "Processing pre-collection data" ;;
    run_stages base_xmlfile xml process_sr mydir false
  else if Py.str_in (Py.slice_to 4 base_xmlfile) prefixes_collection then
    logger DEBUG "Processing collection data" ;;
    run_stages base_xmlfile xml process_sr mydir true
  else
    logger LOG_ERROR
      ("Base XML filename is not recognized as a valid Landsat 4-7 "
         ++ "scene name" ++ base_xmlfile) ;;
    os_chdir mydir ;;
    ret ERROR.

Definition runLedaps (xmlfile : option string) (process_sr : string) : M Z :=
  args <- command_line_args xmlfile process_sr ;;
  let '(xmlfile, process_sr) := args in
  logger INFO ("LEDAPS processing of Landsat XML file: " ++ xmlfile) ;;
  found <- os_path_isfile xmlfile ;;
  if negb found then
    logger LOG_ERROR
      ("XML file does not exist or is not accessible: " ++ xmlfile) ;;
    ret ERROR
  else
    let base_xmlfile := Py.basename xmlfile in
    let xml := Py.re_sub_xml base_xmlfile in
    logger INFO ("Processing XML basefile: " ++ xml) ;;
    mydir <- os_getcwd ;;
    abs <- os_path_abspath xmlfile ;;
    let xmldir := Py.dirname abs in
    writable <- os_access_W_OK xmldir ;;
    if negb writable then
      logger LOG_ERROR
        ("Path of XML file is not writable: " ++ xmldir
           ++ ".  LEDAPS needs write access to the XML directory.") ;;
      ret ERROR
    else
      logger INFO ("Changing directories for LEDAPS processing: " ++ xmldir) ;;
      os_chdir xmldir ;;
      classify_and_run base_xmlfile xml process_sr mydir.

(** ** Notions of the specification *)

(** The Gregorian rule as the specification words it: divisible by 4, and
    if divisible by 100 then also divisible by 400. *)
Definition gregorian_leap (year : Z) : Prop :=
  year mod 4 = 0 /\ (year mod 100 = 0 -> year mod 400 = 0).

Fixpoint zeros (n : nat) : string :=
  match n with
  | O => EmptyString
  | S n' => String "0" (zeros n')
  end.

(** A day number zero-padded to three digits: its decimal numeral, with
    zeros in front while it is shorter than three characters. *)
Definition zero_padded3 (d : Z) : string :=
  zeros (3 - String.length (Py.str d)) ++ Py.str d.

(** The two ancillary files of a day, as the specification lays them out. *)
Definition reanalysis_path (base : string) (year d : Z) : string :=
  base ++ "/REANALYSIS/RE_" ++ Py.str year ++ "/REANALYSIS_"
       ++ Py.str year ++ zero_padded3 d ++ ".hdf".

Definition ozone_path (base : string) (year d : Z) : string :=
  base ++ "/EP_TOMS/ozone_" ++ Py.str year ++ "/TOMS_"
       ++ Py.str year ++ zero_padded3 d ++ ".hdf".

(** ** Auxiliary notions for [findAncillary] *)

(** The entry the loop appends for the day [d]. *)
Definition both_isfile (w : World os) (ancdir : string) (year d : Z) : bool :=
  isfile os (env w) (cwd w) (ncepFile ancdir year (dayofyear d))
  && isfile os (env w) (cwd w) (tomsFile ancdir year (dayofyear d)).

(** The number of days the loop runs over (lines 110-124). *)
Definition ndays_of (w : World os) (year doy : Z) : Z :=
  if doy =? -99 then
    if year =? year_of (now os (env w)) then tm_yday (now os (env w))
    else if isLeapYear year then 366 else 365
  else 1.

(** ** Auxiliary notions for [runLedaps] *)

(** An external stage: the debug line logged before it, if any, its
    command string and the message logged when it fails. *)
Record stage : Type := {
  announce : option string;
  command : string;
  failure_message : string
}.

(** The stages [run_stages] goes through, in order, while none fails. *)
Definition stages_of (base_xmlfile xml process_sr : string)
                     (processing_collection : bool) : list stage :=
  let process_collection_opt_str :=
    if processing_collection then "--process_collection" else "" in
  let process_sr_opt_str :=
    if String.eqb process_sr "True" then "--process_sr=true"
    else "--process_sr=false" in
  let angle_bands :=
    {| announce := None;
       command := "create_landsat_angle_bands --xml " ++ base_xmlfile;
       failure_message :=
         "Error running create_landsat_angle_bands.  Processing will terminate." |} in
  let lndpm_cmdstr :=
    "lndpm --xml " ++ base_xmlfile ++ " " ++ process_sr_opt_str in
  let lndpm :=
    {| announce := Some ("lndpm command: " ++ lndpm_cmdstr);
       command := lndpm_cmdstr;
       failure_message := "Error running lndpm.  Processing will terminate." |} in
  let lndcal :=
    {| announce := None;
       command := "lndcal --pfile lndcal." ++ xml ++ ".txt "
                    ++ process_collection_opt_str;
       failure_message := "Error running lndcal.  Processing will terminate." |} in
  let lndsr :=
    {| announce := None;
       command := "lndsr --pfile lndsr." ++ xml ++ ".txt "
                    ++ process_collection_opt_str;
       failure_message := "Error running lndsr.  Processing will terminate." |} in
  let lndsrbm :=
    {| announce := None;
       command := "lndsrbm.py -f lndsr." ++ xml ++ ".txt";
       failure_message := "Error running lndsrbm.  Processing will terminate." |} in
  ((if processing_collection then [angle_bands] else [])
   ++ [lndpm; lndcal]
   ++ (if String.eqb process_sr "True"
       then lndsr :: (if negb processing_collection then [lndsrbm] else [])
       else []))%list.

(** Going through a list of stages, each one as [run_stage] runs it. *)
Fixpoint exec_stages (mydir : string) (stages : list stage) : M Z :=
  match stages with
  | [] =>
      os_chdir mydir ;;
      logger INFO "Completion of LEDAPS." ;;
      ret SUCCESS
  | s :: rest =>
      match announce s with
      | Some msg =>
          logger DEBUG msg ;;
          run_stage (command s) (failure_message s) mydir
                    (exec_stages mydir rest)
      | None =>
          run_stage (command s) (failure_message s) mydir
                    (exec_stages mydir rest)
      end
  end.

(** The commands a walk through [stages] invokes, with their statuses, and
    the value it comes to: every stage up to the first one whose exit code
    [status >> 8] is not zero. *)
Inductive trace_of : list stage -> list (string * Z) -> Z -> Prop :=
| trace_done : trace_of [] [] SUCCESS
| trace_fail s rest status :
    Z.shiftr status 8 <> 0 ->
    trace_of (s :: rest) [(command s, status)] ERROR
| trace_next s rest status t v :
    Z.shiftr status 8 = 0 ->
    trace_of rest t v ->
    trace_of (s :: rest) ((command s, status) :: t) v.

(** The commands and the value of a run that has reached the naming
    check. *)
Definition pipeline_trace (base_xmlfile xml process_sr : string)
                          (t : list (string * Z)) (v : Z) : Prop :=
  if Py.str_in (Py.slice_to 3 base_xmlfile) prefixes_old
  then trace_of (stages_of base_xmlfile xml process_sr false) t v
  else if Py.str_in (Py.slice_to 4 base_xmlfile) prefixes_collection
       then trace_of (stages_of base_xmlfile xml process_sr true) t v
       else t = [] /\ v = ERROR.

(** [os.chdir] never raises. *)
Definition chdir_permitted : Prop :=
  forall e c p, chdir_ok os e c p = true.

(** The program a command string names: its text up to the first space. *)
Fixpoint program (cmd : string) : string :=
  match cmd with
  | EmptyString => EmptyString
  | String c r => if Ascii.eqb c " " then EmptyString
                  else String c (program r)
  end.

Definition is_blank (c : ascii) : bool :=
  Ascii.eqb c " " || Ascii.eqb c (ascii_of_nat 9) || Ascii.eqb c (ascii_of_nat 10).

(** The blank-separated fields of a command line, [cur] being the field
    under way: the arguments a shell makes of text without quoting. *)
Fixpoint fields (s cur : string) : list string :=
  match s with
  | EmptyString => if String.eqb cur "" then [] else [cur]
  | String c r =>
      if is_blank c
      then ((if String.eqb cur "" then [] else [cur]) ++ fields r "")%list
      else fields r (cur ++ String c "")
  end.

Definition words (s : string) : list string := fields s "".

(** The XML file is there and its directory is writable and can be
    entered: the run gets as far as checking the scene name. *)
Definition reaches_naming_check (xmlfile : string) (w : World os) : Prop :=
  isfile os (env w) (cwd w) xmlfile = true /\
  access_W_OK os (env w) (cwd w)
    (Py.dirname (abspath os (cwd w) xmlfile)) = true /\
  chdir_ok os (env w) (cwd w)
    (Py.dirname (abspath os (cwd w) xmlfile)) = true.

(** The last line logged by a call that returns: an error line for [ERROR],
    the completion line for [SUCCESS]. *)
Definition ends_log (w w' : World os) (c : Z) : Prop :=
  exists l lvl msg,
    logged w' = (logged w ++ l ++ [(lvl, msg)])%list /\
    ((c = ERROR /\ lvl = LOG_ERROR) \/
     (c = SUCCESS /\ lvl = INFO /\ msg = "Completion of LEDAPS.")).

(** ** Lemmas on the built-ins *)

Lemma range_length lo hi : List.length (Py.range lo hi) = Z.to_nat (hi - lo).
Proof. unfold Py.range. now rewrite length_map, length_seq. Qed.

Lemma range_In lo hi d : In d (Py.range lo hi) -> lo <= d < hi.
Proof.
  unfold Py.range. rewrite in_map_iff. intros (i & <- & Hi).
  apply in_seq in Hi. lia.
Qed.

Lemma range_nth_error lo hi i d :
  nth_error (Py.range lo hi) i = Some d -> d = lo + Z.of_nat i.
Proof.
  unfold Py.range. intros H.
  rewrite nth_error_map in H.
  destruct (nth_error (seq 0 (Z.to_nat (hi - lo))) i) as [j|] eqn:Hj;
    [|discriminate].
  pose proof (nth_error_nth _ _ 0%nat Hj) as Hn.
  rewrite seq_nth in Hn.
  - simpl in *. injection H as <-. subst j. reflexivity.
  - assert (Hlt : (i < List.length (seq 0 (Z.to_nat (hi - lo))))%nat)
      by (apply nth_error_Some; congruence).
    now rewrite length_seq in Hlt.
Qed.

Lemma str_digit_length d : 0 <= d < 10 -> String.length (Py.str d) = 1%nat.
Proof.
  intros H. assert (E : d = Z.of_nat (Z.to_nat d)) by lia.
  rewrite E. assert (Hn : (Z.to_nat d < 10)%nat) by lia.
  revert Hn. generalize (Z.to_nat d). intros n Hn.
  do 10 (destruct n as [|n]; [reflexivity|]). lia.
Qed.

Lemma str_2digit_length d : 10 <= d < 100 -> String.length (Py.str d) = 2%nat.
Proof.
  intros H. assert (E : d = 10 + Z.of_nat (Z.to_nat (d - 10))) by lia.
  rewrite E. assert (Hn : (Z.to_nat (d - 10) < 90)%nat) by lia.
  revert Hn. generalize (Z.to_nat (d - 10)). intros n Hn.
  do 90 (destruct n as [|n]; [reflexivity|]). lia.
Qed.

Lemma string_of_uint_length u :
  String.length (NilEmpty.string_of_uint u) = Decimal.nb_digits u.
Proof. induction u; simpl; congruence. Qed.

Lemma str_3digit_length d : 100 <= d -> (3 <= String.length (Py.str d))%nat.
Proof.
  intros H. destruct d as [|p|p]; try lia.
  unfold Py.str, NilZero.string_of_int. simpl Z.to_int. 
  pose proof (Unsigned.of_to p) as E.
  unfold NilZero.string_of_uint.
  destruct (Pos.to_uint p) as [|u|u|u|u|u|u|u|u|u|u] eqn:Hu;
    try (simpl in E; discriminate);
    rewrite string_of_uint_length;
    (destruct u as [|v|v|v|v|v|v|v|v|v|v];
     [ exfalso; vm_compute in E; try discriminate; injection E as E; lia
     | destruct v as [|x|x|x|x|x|x|x|x|x|x];
       try (exfalso; vm_compute in E; try discriminate; injection E as E; lia);
       simpl; lia .. ]).
Qed.

Lemma dayofyear_zero_padded d : 0 <= d -> dayofyear d = zero_padded3 d.
Proof.
  intros H. unfold dayofyear, zero_padded3.
  destruct (d <? 10) eqn:H10.
  - apply Z.ltb_lt in H10. now rewrite str_digit_length by lia.
  - apply Z.ltb_ge in H10.
    destruct (d <? 100) eqn:H100.
    + apply Z.ltb_lt in H100.
      replace (9 <? d) with true by (symmetry; apply Z.ltb_lt; lia).
      now rewrite str_2digit_length by lia.
    + apply Z.ltb_ge in H100. rewrite andb_false_r.
      pose proof (str_3digit_length d H100) as L.
      now replace (3 - String.length (Py.str d))%nat with 0%nat by lia.
Qed.

Lemma isLeapYear_gregorian year : isLeapYear year = true <-> gregorian_leap year.
Proof.
  unfold isLeapYear, gregorian_leap.
  destruct (year mod 4 =? 0) eqn:H4; [apply Z.eqb_eq in H4|apply Z.eqb_neq in H4];
  destruct (year mod 100 =? 0) eqn:H100;
    [apply Z.eqb_eq in H100|apply Z.eqb_neq in H100| |];
  try (destruct (year mod 400 =? 0) eqn:H400;
    [apply Z.eqb_eq in H400|apply Z.eqb_neq in H400]);
  split; intros; try discriminate; try tauto; try easy.
Qed.

Example isLeapYear_examples :
  isLeapYear 2000 = true /\ isLeapYear 1900 = false /\
  isLeapYear 2012 = true /\ isLeapYear 2013 = false.
Proof. vm_compute. tauto. Qed.

Example dayofyear_examples :
  dayofyear 7 = "007" /\ dayofyear 45 = "045" /\ dayofyear 366 = "366" /\
  dayofyear 0 = "000" /\ dayofyear 400 = "400".
Proof. vm_compute. tauto. Qed.

Lemma for_in_appends {A B} (f : A -> B) (body : A -> list B -> M (list B))
      (w : World os) :
  (forall x acc, body x acc w = (Return (acc ++ [f x])%list, w)) ->
  forall xs acc,
    for_in xs body acc w = (Return (acc ++ map f xs)%list, w).
Proof.
  intros Hbody xs. induction xs as [|x xs IH]; intros acc; simpl.
  - unfold ret. now rewrite app_nil_r.
  - unfold bind. rewrite Hbody, IH, <- app_assoc. reflexivity.
Qed.

Lemma findAncillary_configured year doy w ancdir :
  environ_get os (env w) "ANC_PATH" = Some ancdir ->
  findAncillary year doy w =
  (Return (Some (map (fun currdoy =>
                        both_isfile w ancdir year
                          (if negb (doy =? -99) then doy else currdoy))
                     (Py.range 1 (ndays_of w year doy + 1)))), w).
Proof.
  intros Hanc. unfold findAncillary, bind at 1, os_environ_get.
  rewrite Hanc. unfold bind at 1.
  assert (Hn : (if doy =? -99
                then now <- datetime_now;;
                     (if year =? year_of now then ret (tm_yday now)
                      else if isLeapYear year then ret 366 else ret 365)
                else ret 1) w = (Return (ndays_of w year doy), w)).
  { unfold ndays_of, bind, datetime_now, ret.
    destruct (doy =? -99); [|reflexivity].
    destruct (year =? year_of (now os (env w))); [reflexivity|].
    now destruct (isLeapYear year). }
  rewrite Hn. unfold bind at 1.
  rewrite (for_in_appends
             (fun currdoy => both_isfile w ancdir year
                (if negb (doy =? -99) then doy else currdoy))).
  - reflexivity.
  - intros x acc. unfold bind, os_path_isfile, ret, both_isfile.
    destruct (isfile os (env w) (cwd w) (ncepFile ancdir year _)); simpl.
    + now destruct (isfile os (env w) (cwd w) (tomsFile ancdir year _)).
    + reflexivity.
Qed.

Lemma findAncillary_unconfigured year doy w :
  environ_get os (env w) "ANC_PATH" = None ->
  findAncillary year doy w =
  (Return None,
   {| env := env w; cwd := cwd w; invoked := invoked w;
      logged := (logged w ++
        [(LOG_ERROR, "ANC_PATH environment variable not set... exiting")])%list |}).
Proof.
  intros Hanc. unfold findAncillary, bind, os_environ_get.
  now rewrite Hanc.
Qed.


(** ** [findAncillary] *)

(** C6.  With [ANC_PATH] configured, the list [findAncillary] returns has
    length 1 when a day is given (any [doy] but the default [-99]),
    whatever the year; with no day given it has as many entries as the
    ordinal day number of today when [year] is the current year, and
    otherwise 366 entries when [year] is a leap year under the Gregorian
    rule and 365 when it is not. *)
Theorem findAncillary_length year doy w base :
  environ_get os (env w) "ANC_PATH" = Some base ->
  exists l,
    findAncillary year doy w = (Return (Some l), w) /\
    (doy <> -99 -> List.length l = 1%nat) /\
    (doy = -99 -> year = year_of (now os (env w)) ->
     List.length l = Z.to_nat (tm_yday (now os (env w)))) /\
    (doy = -99 -> year <> year_of (now os (env w)) ->
     gregorian_leap year -> List.length l = 366%nat) /\
    (doy = -99 -> year <> year_of (now os (env w)) ->
     ~ gregorian_leap year -> List.length l = 365%nat).
Proof.
  intros Hanc. eexists. split; [apply (findAncillary_configured _ _ _ _ Hanc)|].
  rewrite length_map, range_length. unfold ndays_of.
  repeat split.
  - intros Hd. apply Z.eqb_neq in Hd. now rewrite Hd.
  - intros -> Hy. apply Z.eqb_eq in Hy. rewrite Hy. simpl. f_equal. lia.
  - intros -> Hy Hleap. apply Z.eqb_neq in Hy. rewrite Hy. simpl.
    apply isLeapYear_gregorian in Hleap. now rewrite Hleap.
  - intros -> Hy Hleap. apply Z.eqb_neq in Hy. rewrite Hy. simpl.
    destruct (isLeapYear year) eqn:E; [|reflexivity].
    apply isLeapYear_gregorian in E. contradiction.
Qed.

(** C7.  With [ANC_PATH] set to [base], the entries of the result follow
    the evaluated days in ascending order, one entry for each day: in a
    scan (no day given) entry [i], counted from 0, is for day [i + 1], and
    with a day [doy >= 0] given the one entry is for [doy].  The entry for day [d] is true exactly when
    both [<base>/REANALYSIS/RE_<year>/REANALYSIS_<year><ddd>.hdf] and
    [<base>/EP_TOMS/ozone_<year>/TOMS_<year><ddd>.hdf] are files, [<ddd>]
    being [d] zero-padded to three digits; one file alone gives false. *)
Theorem findAncillary_entries year doy w base :
  environ_get os (env w) "ANC_PATH" = Some base ->
  doy = -99 \/ 0 <= doy ->
  exists l,
    findAncillary year doy w = (Return (Some l), w) /\
    List.length l = Z.to_nat (ndays_of w year doy) /\
    (doy = -99 ->
     forall i, (i < List.length l)%nat ->
       nth_error l i =
       Some (isfile os (env w) (cwd w)
               (reanalysis_path base year (1 + Z.of_nat i))
             && isfile os (env w) (cwd w)
                  (ozone_path base year (1 + Z.of_nat i)))) /\
    (doy <> -99 ->
     l = [isfile os (env w) (cwd w) (reanalysis_path base year doy)
          && isfile os (env w) (cwd w) (ozone_path base year doy)]).
Proof.
  intros Hanc Hdoy. eexists.
  split; [apply (findAncillary_configured _ _ _ _ Hanc)|].
  split; [rewrite length_map, range_length; f_equal; lia|]. split.
  - intros -> i Hi. rewrite length_map in Hi.
    destruct (nth_error (Py.range 1 (ndays_of w year (-99) + 1)) i)
      as [d|] eqn:Hd; [|apply nth_error_None in Hd; lia].
    rewrite nth_error_map, Hd. simpl.
    apply range_nth_error in Hd. subst d.
    unfold both_isfile, ncepFile, tomsFile, reanalysis_path, ozone_path.
    now rewrite dayofyear_zero_padded by lia.
  - intros Hd. destruct Hdoy as [?|Hpos]; [contradiction|].
    unfold ndays_of. apply Z.eqb_neq in Hd. rewrite Hd. simpl.
    unfold both_isfile, ncepFile, tomsFile, reanalysis_path, ozone_path.
    now rewrite dayofyear_zero_padded by lia.
Qed.

(** C9.  [findAncillary] always returns, and returns [None] exactly when
    [ANC_PATH] is not set; whenever it is set the result is a list of
    booleans with one entry for each of the days to evaluate, and the
    state is left as it was. *)
Theorem findAncillary_None_iff year doy w :
  exists r w',
    findAncillary year doy w = (Return r, w') /\
    (r = None <-> environ_get os (env w) "ANC_PATH" = None) /\
    (forall base, environ_get os (env w) "ANC_PATH" = Some base ->
       w' = w /\
       exists l, r = Some l /\
                 List.length l = Z.to_nat (ndays_of w year doy)).
Proof.
  destruct (environ_get os (env w) "ANC_PATH") as [base|] eqn:Hanc.
  - do 2 eexists. split; [apply (findAncillary_configured _ _ _ _ Hanc)|].
    split; [split; discriminate|].
    intros b _. split; [reflexivity|]. eexists. split; [reflexivity|].
    rewrite length_map, range_length. f_equal. lia.
  - do 2 eexists. split; [apply (findAncillary_unconfigured _ _ _ Hanc)|].
    split; [tauto|]. intros b Hb. discriminate.
Qed.

(** C10.  [findAncillary] does not validate the day: with [ANC_PATH] set,
    every [doy] other than [-99], in or out of the range 1..366, gives a
    list of one entry, for the two files named after that very value; and a
    call with [doy = -99] is the call with the day omitted, a scan of the
    year (up to today in the current year). *)
Theorem findAncillary_no_range_check year w base :
  environ_get os (env w) "ANC_PATH" = Some base ->
  (forall doy, doy <> -99 ->
     findAncillary year doy w =
     (Return (Some [isfile os (env w) (cwd w)
                      (ncepFile base year (dayofyear doy))
                    && isfile os (env w) (cwd w)
                         (tomsFile base year (dayofyear doy))]), w)) /\
  findAncillary_call year (Some (-99)) = findAncillary_call year None /\
  (exists l,
     findAncillary_call year (Some (-99)) w = (Return (Some l), w) /\
     List.length l =
     Z.to_nat (if year =? year_of (now os (env w))
               then tm_yday (now os (env w))
               else if isLeapYear year then 366 else 365)).
Proof.
  intros Hanc. split; [|split].
  - intros doy Hd. rewrite (findAncillary_configured _ _ _ _ Hanc).
    unfold ndays_of. apply Z.eqb_neq in Hd. now rewrite Hd.
  - reflexivity.
  - eexists. split.
    + unfold findAncillary_call. apply (findAncillary_configured _ _ _ _ Hanc).
    + rewrite length_map, range_length. unfold ndays_of. simpl. f_equal. lia.
Qed.

Lemma run_stages_exec base_xmlfile xml process_sr mydir processing_collection :
  run_stages base_xmlfile xml process_sr mydir processing_collection =
  exec_stages mydir
    (stages_of base_xmlfile xml process_sr processing_collection).
Proof.
  unfold run_stages, run_sr, stages_of.
  destruct processing_collection, (String.eqb process_sr "True"); reflexivity.
Qed.

(** *** One stage, and a list of stages *)

Lemma chdir_refused e c p : chdir_ok os e c p = false -> ~ chdir_permitted.
Proof. intros H Hall. rewrite Hall in H. discriminate. Qed.

Lemma run_stage_cases cmdstr errmsg mydir rest w r w' :
  run_stage cmdstr errmsg mydir rest w = (r, w') ->
  exists status w1,
    invoked w1 = (invoked w ++ [(cmdstr, status)])%list /\
    cwd w1 = cwd w /\
    ((Z.shiftr status 8 = 0 /\ rest w1 = (r, w')) \/
     (Z.shiftr status 8 <> 0 /\ invoked w' = invoked w1 /\
      ((r = Return ERROR /\ cwd w' = mydir) \/
       (r = Raise OSError /\ ~ chdir_permitted)))).
Proof.
  unfold run_stage, bind, commands_getstatusoutput, logger, os_chdir, ret.
  intros H.
  destruct (popen os (env w) (cwd w) cmdstr) as [[status output] e'].
  exists status,
    {| env := e'; cwd := cwd w;
       invoked := (invoked w ++ [(cmdstr, status)])%list;
       logged := (logged w ++ [(INFO, output)])%list |}.
  split; [reflexivity|]. split; [reflexivity|].
  destruct (Z.shiftr status 8 =? 0) eqn:Hexit; cbn in H |- *.
  - apply Z.eqb_eq in Hexit. left. now split.
  - apply Z.eqb_neq in Hexit. right. split; [assumption|].
    destruct (chdir_ok os e' (cwd w) mydir) eqn:Hcd;
      injection H as <- <-; (split; [reflexivity|]).
    + left. split; reflexivity.
    + right. split; [reflexivity|]. eapply chdir_refused; eassumption.
Qed.

Lemma exec_stages_sound mydir stages :
  forall w r w',
    exec_stages mydir stages w = (r, w') ->
    exists t v,
      trace_of stages t v /\
      invoked w' = (invoked w ++ t)%list /\
      ((r = Return v /\ cwd w' = mydir) \/
       (r = Raise OSError /\ ~ chdir_permitted)).
Proof.
  induction stages as [|s rest IH]; intros w r w' Hrun.
  - simpl in Hrun. unfold bind, os_chdir, logger, ret in Hrun.
    exists [], SUCCESS. split; [constructor|].
    destruct (chdir_ok os (env w) (cwd w) mydir) eqn:Hcd;
      injection Hrun as <- <-; cbn [invoked cwd]; rewrite app_nil_r;
      (split; [reflexivity|]).
    + left. split; reflexivity.
    + right. split; [reflexivity|]. eapply chdir_refused; eassumption.
  - assert (Hstage : exists w0, invoked w0 = invoked w /\
              run_stage (command s) (failure_message s) mydir
                        (exec_stages mydir rest) w0 = (r, w')).
    { simpl in Hrun. destruct (announce s) as [msg|].
      - unfold bind at 1, logger at 1 in Hrun. eexists. split; [|exact Hrun].
        reflexivity.
      - exists w. split; [reflexivity|exact Hrun]. }
    destruct Hstage as (w0 & Hw0 & Hstage).
    apply run_stage_cases in Hstage.
    destruct Hstage as (status & w1 & Hinv & _ & [[Hok Hrest]|(Hko & Hsame & Hres)]).
    + apply IH in Hrest. destruct Hrest as (t & v & Ht & Hinv' & Hres).
      exists ((command s, status) :: t), v. split; [now constructor|].
      split; [|exact Hres].
      rewrite Hinv', Hinv, Hw0, <- app_assoc. reflexivity.
    + exists [(command s, status)], ERROR. split; [now constructor|].
      split; [|exact Hres]. now rewrite Hsame, Hinv, Hw0.
Qed.

(** *** The ways through [runLedaps] *)

Lemma command_line_args_cases xmlfile process_sr w r w' :
  command_line_args xmlfile process_sr w = (r, w') ->
  w' = w /\
  ((xmlfile = None /\ r = Raise SystemExit) \/
   (exists f sr, r = Return (f, sr))).
Proof.
  unfold command_line_args, bind, parser_parse_args, parser_error, raise, ret.
  destruct xmlfile as [f|].
  - intros [= <- <-]. split; [reflexivity|]. right. now exists f, process_sr.
  - destruct (parse_args os (env w)) as [[[f|] [sr|]]|];
      intros [= <- <-]; (split; [reflexivity|]);
      try (left; now split); right; eauto.
Qed.

Lemma command_line_args_given f process_sr w :
  command_line_args (Some f) process_sr w = (Return (f, process_sr), w).
Proof. reflexivity. Qed.

Lemma classify_and_run_cases base_xmlfile xml process_sr mydir w r w' :
  classify_and_run base_xmlfile xml process_sr mydir w = (r, w') ->
  exists t v,
    pipeline_trace base_xmlfile xml process_sr t v /\
    invoked w' = (invoked w ++ t)%list /\
    ((r = Return v /\ cwd w' = mydir) \/
     (r = Raise OSError /\ ~ chdir_permitted)).
Proof.
  unfold classify_and_run, pipeline_trace.
  destruct (Py.str_in (Py.slice_to 3 base_xmlfile) prefixes_old);
    [|destruct (Py.str_in (Py.slice_to 4 base_xmlfile) prefixes_collection)].
  - unfold bind at 1, logger at 1. rewrite run_stages_exec. intros H.
    apply exec_stages_sound in H. exact H.
  - unfold bind at 1, logger at 1. rewrite run_stages_exec. intros H.
    apply exec_stages_sound in H. exact H.
  - unfold bind, logger, os_chdir, ret. cbn. intros H.
    exists [], ERROR. split; [now split|].
    destruct (chdir_ok os (env w) (cwd w) mydir) eqn:Hcd;
      injection H as <- <-; cbn; rewrite app_nil_r; (split; [reflexivity|]).
    + left. now split.
    + right. split; [reflexivity|]. eapply chdir_refused; eassumption.
Qed.

Lemma runLedaps_cases xmlfile process_sr w r w' :
  runLedaps xmlfile process_sr w = (r, w') ->
  (command_line_args xmlfile process_sr w = (Raise SystemExit, w) /\
   r = Raise SystemExit /\ w' = w) \/
  exists f sr,
    command_line_args xmlfile process_sr w = (Return (f, sr), w) /\
    ((~ reaches_naming_check f w /\
      invoked w' = invoked w /\ cwd w' = cwd w /\
      (r = Return ERROR \/ (r = Raise OSError /\ ~ chdir_permitted))) \/
     (reaches_naming_check f w /\
      exists t v,
        pipeline_trace (Py.basename f) (Py.re_sub_xml (Py.basename f)) sr t v /\
        invoked w' = (invoked w ++ t)%list /\
        ((r = Return v /\ cwd w' = cwd w) \/
         (r = Raise OSError /\ ~ chdir_permitted)))).
Proof.
  intros H. unfold runLedaps in H. unfold bind at 1 in H.
  destruct (command_line_args xmlfile process_sr w) as [a w0] eqn:Hargs.
  apply command_line_args_cases in Hargs as Hcases.
  destruct Hcases as [-> [[-> ->]|(f & sr & ->)]].
  - injection H as <- <-. left. now repeat split.
  - right. exists f, sr. split; [reflexivity|].
    revert H. unfold reaches_naming_check.
    unfold bind at 1, logger at 1. unfold bind at 1, os_path_isfile at 1.
    cbn [env cwd].
    destruct (isfile os (env w) (cwd w) f) eqn:Hfile; cbn [negb].
    2:{ unfold bind, logger, ret. intros [= <- <-]. left.
        split; [intros (? & _); discriminate|]. repeat split. now left. }
    unfold bind at 1, logger at 1. unfold bind at 1, os_getcwd at 1.
    unfold bind at 1, os_path_abspath at 1.
    unfold bind at 1, os_access_W_OK at 1. cbn [env cwd].
    destruct (access_W_OK os (env w) (cwd w)
                (Py.dirname (abspath os (cwd w) f))) eqn:Hacc; cbn [negb].
    2:{ unfold bind, logger, ret. intros [= <- <-]. left.
        split; [intros (_ & ? & _); discriminate|]. repeat split. now left. }
    unfold bind at 1, logger at 1. unfold bind at 1, os_chdir at 1.
    cbn [env cwd].
    destruct (chdir_ok os (env w) (cwd w)
                (Py.dirname (abspath os (cwd w) f))) eqn:Hcd.
    2:{ intros [= <- <-]. left.
        split; [intros (_ & _ & ?); discriminate|]. repeat split.
        right. split; [reflexivity|]. eapply chdir_refused; eassumption. }
    intros H. apply classify_and_run_cases in H. right.
    split; [now repeat split|]. exact H.
Qed.

(** *** Facts on traces, prefixes and fields *)

Lemma trace_of_split stages t v :
  trace_of stages t v ->
  forall pre cmd status post,
    t = (pre ++ (cmd, status) :: post)%list ->
    (Z.shiftr status 8 <> 0 -> post = [] /\ v = ERROR) /\
    (Z.shiftr status 8 = 0 -> post <> [] \/ v = SUCCESS).
Proof.
  induction 1 as [|s rest st Hko|s rest st t v Hok Ht IH];
    intros pre cmd status post E.
  - destruct pre; discriminate.
  - destruct pre as [|x [|y pre]]; try discriminate.
    injection E as _ <- <-. split; [now split|]. intros Hz. contradiction.
  - destruct pre as [|x pre].
    + injection E as _ <- <-. split; [intros Hz; contradiction|].
      intros _. inversion Ht; subst; [now right|now left|now left].
    + injection E as _ E. exact (IH _ _ _ _ E).
Qed.

Lemma str_in_prefixes_old s :
  Py.str_in s prefixes_old = true <-> s = "LT4" \/ s = "LT5" \/ s = "LE7".
Proof.
  unfold Py.str_in, prefixes_old. cbn [existsb].
  rewrite !orb_true_iff, !String.eqb_eq. intuition discriminate.
Qed.

Lemma str_in_prefixes_collection s :
  Py.str_in s prefixes_collection = true <->
  s = "LT04" \/ s = "LT05" \/ s = "LE07".
Proof.
  unfold Py.str_in, prefixes_collection. cbn [existsb].
  rewrite !orb_true_iff, !String.eqb_eq. intuition discriminate.
Qed.

Lemma slice_to_3_4 s : Py.slice_to 3 (Py.slice_to 4 s) = Py.slice_to 3 s.
Proof. destruct s as [|c1 [|c2 [|c3 [|c4 s]]]]; reflexivity. Qed.

(** The two naming conventions exclude each other. *)
Lemma prefixes_disjoint s :
  Py.str_in (Py.slice_to 4 s) prefixes_collection = true ->
  Py.str_in (Py.slice_to 3 s) prefixes_old = false.
Proof.
  intros H. apply str_in_prefixes_collection in H.
  rewrite <- slice_to_3_4. destruct H as [-> | [-> | ->]]; reflexivity.
Qed.

Lemma fields_blank a b : forall cur,
  fields (a ++ String " " b) cur = (fields a cur ++ fields b "")%list.
Proof.
  induction a as [|c a IH]; intros cur; simpl.
  - destruct (String.eqb cur ""); reflexivity.
  - destruct (is_blank c).
    + rewrite IH, <- app_assoc. reflexivity.
    + apply IH.
Qed.

Lemma words_blank a b : words (a ++ " " ++ b) = (words a ++ words b)%list.
Proof. apply fields_blank. Qed.

Lemma words_trailing_blank a : words (a ++ " ") = words a.
Proof. change (a ++ " ") with (a ++ " " ++ ""). rewrite words_blank. apply app_nil_r. Qed.

Lemma fields_nonempty s : forall cur, ~ In "" (fields s cur).
Proof.
  induction s as [|c s IH]; intros cur; simpl.
  - destruct (String.eqb cur "") eqn:E; simpl; [tauto|].
    apply String.eqb_neq in E. intros [H|[]]. congruence.
  - destruct (is_blank c); [|apply IH].
    rewrite in_app_iff. intros [H|H]; [|exact (IH _ H)].
    destruct (String.eqb cur "") eqn:E; simpl in H; [tauto|].
    apply String.eqb_neq in E. destruct H as [H|[]]. congruence.
Qed.

(** ** [runLedaps] *)

Lemma no_new_command {A} (l : list A) pre x post :
  l = (l ++ pre ++ x :: post)%list -> False.
Proof.
  intros E. rewrite <- (app_nil_r l) in E at 1.
  apply app_inv_head in E. destruct pre; discriminate.
Qed.

(** C1.  Whenever [runLedaps] returns, on whichever path (the scene name
    not recognised, a stage failing, or success), the working directory is
    the one the call started in; so it is when the command-line parser
    exits.  Only [os.chdir] raising leaves the function otherwise, and
    where it never raises every call comes back this way. *)
Theorem runLedaps_restores_cwd xmlfile process_sr w r w' :
  runLedaps xmlfile process_sr w = (r, w') ->
  (r <> Raise OSError -> cwd w' = cwd w) /\
  (chdir_permitted -> r <> Raise OSError).
Proof.
  intros H. apply runLedaps_cases in H.
  destruct H as [(_ & Hr & Hw)|(f & sr & _ & [(_ & _ & Hcwd & Hr)|(_ & H)])].
  - subst. split; [reflexivity|discriminate].
  - split; [intros _; exact Hcwd|].
    intros Hp. destruct Hr as [->|[_ Hno]]; [discriminate|contradiction].
  - destruct H as (t & v & _ & _ & [[Hr Hcwd]|[Hr Hno]]); subst.
    + split; [intros _; exact Hcwd|discriminate].
    + split; [congruence|]. intros Hp. contradiction.
Qed.

(** C2.  Take any command of a run, with the status it came back with.
    If its exit code [status >> 8] is not zero, no command follows it and
    the run does not succeed; and, [os.chdir] not raising, the exit code is
    not zero exactly when the run ends there with [ERROR]. *)
Theorem runLedaps_first_failure xmlfile process_sr w r w' pre cmd status post :
  runLedaps xmlfile process_sr w = (r, w') ->
  invoked w' = (invoked w ++ pre ++ (cmd, status) :: post)%list ->
  (Z.shiftr status 8 <> 0 -> post = [] /\ r <> Return SUCCESS) /\
  (chdir_permitted ->
   (Z.shiftr status 8 <> 0 <-> post = [] /\ r = Return ERROR)).
Proof.
  intros H Hinv. apply runLedaps_cases in H.
  destruct H as [(_ & _ & E)|(f & sr & _ & [(_ & E & _)|(_ & H)])].
  - exfalso. subst w'. eapply no_new_command; eassumption.
  - exfalso. rewrite E in Hinv. eapply no_new_command; eassumption.
  - destruct H as (t & v & Ht & E & Hr).
    rewrite E in Hinv. apply app_inv_head in Hinv. subst t.
    assert (Hsplit : (Z.shiftr status 8 <> 0 -> post = [] /\ v = ERROR) /\
                     (Z.shiftr status 8 = 0 -> post <> [] \/ v = SUCCESS)).
    { unfold pipeline_trace in Ht.
      destruct (Py.str_in _ prefixes_old);
        [|destruct (Py.str_in _ prefixes_collection)].
      - eapply trace_of_split; [exact Ht|reflexivity].
      - eapply trace_of_split; [exact Ht|reflexivity].
      - destruct Ht as [Ht _]. destruct pre; discriminate. }
    destruct Hsplit as [Hko Hok]. split.
    + intros Hz. destruct (Hko Hz) as [-> ->]. split; [reflexivity|].
      destruct Hr as [[-> _]|[-> _]]; discriminate.
    + intros Hp. destruct Hr as [[-> _]|[_ Hno]]; [|contradiction]. split.
      * intros Hz. destruct (Hko Hz) as [-> ->]. now split.
      * intros [-> Hv] Hz. destruct (Hok Hz) as [?| ->]; [congruence|].
        discriminate.
Qed.

(** C3.  In a run on the XML file [f] that gets to the naming check, with
    [base] the base name of [f]: the scene is taken as pre-collection (the commands
    open with [lndpm], no angle bands) exactly when the first 3 characters
    of [base] are LT4, LT5 or LE7; as a collection scene (the commands
    open with [create_landsat_angle_bands]) exactly when its first 4
    characters are LT04, LT05 or LE07; and for any other name no command
    is invoked and, [os.chdir] not raising, the run returns [ERROR]. *)
Theorem runLedaps_scene_class xmlfile process_sr w f sr r w' :
  command_line_args xmlfile process_sr w = (Return (f, sr), w) ->
  reaches_naming_check f w ->
  runLedaps xmlfile process_sr w = (r, w') ->
  let base := Py.basename f in
  let old := Py.slice_to 3 base = "LT4" \/ Py.slice_to 3 base = "LT5"
             \/ Py.slice_to 3 base = "LE7" in
  let collection := Py.slice_to 4 base = "LT04" \/ Py.slice_to 4 base = "LT05"
                    \/ Py.slice_to 4 base = "LE07" in
  exists t,
    invoked w' = (invoked w ++ t)%list /\
    (old <-> exists cmd status t',
               t = (cmd, status) :: t' /\ program cmd = "lndpm") /\
    (collection <-> exists cmd status t',
               t = (cmd, status) :: t' /\
               cmd = "create_landsat_angle_bands --xml " ++ base) /\
    (~ old -> ~ collection ->
     t = [] /\ (chdir_permitted -> r = Return ERROR)).
Proof.
  intros Hargs Hreach H base old collection. apply runLedaps_cases in H.
  destruct H as [(Hexit & _)|(f' & sr' & Hargs' & H)]; [congruence|].
  rewrite Hargs in Hargs'. injection Hargs' as <- <-.
  destruct H as [(Hno & _)|(_ & t & v & Ht & E & Hr)]; [contradiction|].
  exists t. split; [exact E|].
  unfold pipeline_trace in Ht. fold base in Ht.
  pose proof (str_in_prefixes_old (Py.slice_to 3 base)) as Hold.
  pose proof (str_in_prefixes_collection (Py.slice_to 4 base)) as Hcoll.
  pose proof (prefixes_disjoint base) as Hdis.
  fold old in Hold. fold collection in Hcoll.
  destruct (Py.str_in (Py.slice_to 3 base) prefixes_old) eqn:E3;
    [|destruct (Py.str_in (Py.slice_to 4 base) prefixes_collection) eqn:E4].
  - assert (Hnc : ~ collection).
    { intros Hc. apply Hcoll in Hc. apply Hdis in Hc. discriminate. }
    assert (Ho : old) by now apply Hold.
    assert (Hfirst : exists status t',
               t = ("lndpm --xml " ++ base ++ " " ++
                    (if String.eqb sr "True" then "--process_sr=true"
                     else "--process_sr=false"), status) :: t').
    { unfold stages_of in Ht. cbn [app] in Ht. inversion Ht; subst; eauto. }
    destruct Hfirst as (status & t' & ->).
    split; [|split].
    + split; [|tauto]. intros _. now eexists _, status, t'.
    + split; [tauto|]. intros (cmd & st & t'' & [= <- _ _] & Hcmd).
      discriminate.
    + tauto.
  - assert (Hc : collection) by now apply Hcoll.
    assert (Hno : ~ old). { intros Ho. apply Hold in Ho. discriminate. }
    assert (Hfirst : exists status t',
               t = ("create_landsat_angle_bands --xml " ++ base, status) :: t').
    { unfold stages_of in Ht. cbn [app] in Ht. inversion Ht; subst; eauto. }
    destruct Hfirst as (status & t' & ->).
    split; [|split].
    + split; [tauto|]. intros (cmd & st & t'' & [= <- _ _] & Hcmd).
      discriminate.
    + split; [|tauto]. intros _. now eexists _, status, t'.
    + tauto.
  - destruct Ht as [-> ->].
    assert (Hno : ~ old). { intros Ho. apply Hold in Ho. discriminate. }
    assert (Hnc : ~ collection). { intros Hc. apply Hcoll in Hc. discriminate. }
    split; [|split].
    + split; [tauto|]. intros (? & ? & ? & ? & _). discriminate.
    + split; [tauto|]. intros (? & ? & ? & ? & _). discriminate.
    + intros _ _. split; [reflexivity|]. intros Hp.
      destruct Hr as [[-> _]|[_ Hno']]; [reflexivity|contradiction].
Qed.


Lemma same_trace {A} (l t t' : list A) :
  (l ++ t)%list = (l ++ t')%list -> t = t'.
Proof. apply app_inv_head. Qed.

(** The new commands of a run are a trace of the stages of the scene's
    class, or there are none. *)
Lemma runLedaps_trace xmlfile process_sr w r w' f sr t :
  command_line_args xmlfile process_sr w = (Return (f, sr), w) ->
  runLedaps xmlfile process_sr w = (r, w') ->
  invoked w' = (invoked w ++ t)%list ->
  t = [] \/
  exists v,
    pipeline_trace (Py.basename f) (Py.re_sub_xml (Py.basename f)) sr t v.
Proof.
  intros Hargs H E. apply runLedaps_cases in H.
  assert (Hnil : invoked w' = invoked w -> t = []).
  { intros E'. rewrite E' in E. rewrite <- (app_nil_r (invoked w)) in E at 1.
    symmetry. exact (same_trace _ _ _ E). }
  destruct H as [(_ & _ & Hw)|(f' & sr' & Hargs' & H)].
  - left. apply Hnil. now subst.
  - rewrite Hargs in Hargs'. injection Hargs' as <- <-.
    destruct H as [(_ & E' & _)|(_ & t' & v & Ht & E' & _)].
    + left. now apply Hnil.
    + right. exists v. rewrite E' in E. apply same_trace in E. now subst.
Qed.

Ltac invert_trace :=
  repeat match goal with
         | H : trace_of (_ :: _) _ _ |- _ => inversion H; clear H; subst
         | H : trace_of [] _ _ |- _ => inversion H; clear H; subst
         end.

(** The traces of a recognised scene, one case for each class and each
    answer to [process_sr == "True"]. *)
Ltac pipeline_cases Ht :=
  unfold pipeline_trace in Ht;
  match type of Ht with
  | context [Py.str_in (Py.slice_to 3 ?b) prefixes_old] =>
      let E3 := fresh "E3" in
      let E4 := fresh "E4" in
      destruct (Py.str_in (Py.slice_to 3 b) prefixes_old) eqn:E3;
      [|destruct (Py.str_in (Py.slice_to 4 b) prefixes_collection) eqn:E4]
  end.

(** Exhibits a command of a listed trace by its program. *)
Ltac pick_command :=
  let close := first [reflexivity | split; [reflexivity|assumption]] in
  eexists _, _;
  first [ split; [left; reflexivity|close]
        | split; [right; left; reflexivity|close]
        | split; [right; right; left; reflexivity|close]
        | split; [right; right; right; left; reflexivity|close]
        | split; [right; right; right; right; left; reflexivity|close] ].

(** Goes through the commands of a listed trace. *)
Ltac each_command Hin :=
  simpl in Hin;
  repeat (destruct Hin as [Hin|Hin]; [injection Hin as <- <-|]);
  try contradiction.

(** C4.  With [f] and [sr] the XML file and the [process_sr] value the run
    works on (the arguments themselves when [xmlfile] is passed): whenever
    [lndpm] is invoked it gets [--process_sr=true] if [sr] is the string
    ["True"] and [--process_sr=false] for every other string; and [lndsr]
    is invoked exactly when [sr] is ["True"] and [lndcal] has come back with
    exit code zero. *)
Theorem runLedaps_process_sr xmlfile process_sr w f sr r w' t :
  command_line_args xmlfile process_sr w = (Return (f, sr), w) ->
  runLedaps xmlfile process_sr w = (r, w') ->
  invoked w' = (invoked w ++ t)%list ->
  (forall x, xmlfile = Some x -> f = x /\ sr = process_sr) /\
  (forall cmd status,
     In (cmd, status) t -> program cmd = "lndpm" ->
     (sr = "True" ->
      cmd = "lndpm --xml " ++ Py.basename f ++ " --process_sr=true") /\
     (sr <> "True" ->
      cmd = "lndpm --xml " ++ Py.basename f ++ " --process_sr=false")) /\
  ((exists cmd status, In (cmd, status) t /\ program cmd = "lndsr") <->
   (sr = "True" /\
    exists cmd status,
      In (cmd, status) t /\ program cmd = "lndcal" /\ Z.shiftr status 8 = 0)).
Proof.
  intros Hargs H E. split.
  { intros x ->. rewrite command_line_args_given in Hargs.
    injection Hargs as <- <-. now split. }
  destruct (runLedaps_trace _ _ _ _ _ _ _ _ Hargs H E) as [->|[v Ht]].
  { split; [intros ? ? []|].
    split; [intros (? & ? & [] & _)|intros (_ & ? & ? & [] & _)]. }
  pipeline_cases Ht;
    [| |destruct Ht as [-> _]; split; [intros ? ? []|];
        split; [intros (? & ? & [] & _)|intros (_ & ? & ? & [] & _)]];
    unfold stages_of in Ht;
    (destruct (String.eqb sr "True") eqn:Esr;
     [apply String.eqb_eq in Esr|apply String.eqb_neq in Esr]);
    cbn [app negb] in Ht; invert_trace.
  all: split;
    [ intros cmd st Hin Hprog; each_command Hin; try discriminate Hprog;
      (split; intros Hsr; [reflexivity || congruence
                          | reflexivity || congruence])
    | ].
  all: split;
    [ intros (cmd & st & Hin & Hprog); each_command Hin;
      try discriminate Hprog;
      (split; [reflexivity || assumption|]); pick_command
    | intros (Hsr & cmd & st & Hin & Hprog & Hz); try congruence;
      each_command Hin; try discriminate Hprog; try contradiction;
      pick_command ].
Qed.

(** Goes through the programs of a listed trace. *)
Ltac each_program Hin :=
  simpl in Hin;
  repeat (destruct Hin as [Hin|Hin]; [try discriminate Hin|]);
  try contradiction.

(** C5.  In a run on the XML file [f] with the [process_sr] value [sr]
    that gets to the naming check and in which every invoked stage comes
    back with exit code zero: a pre-collection scene
    with SR requested runs exactly lndpm, lndcal, lndsr, lndsrbm; a
    collection scene with SR not requested runs exactly
    create_landsat_angle_bands, lndpm, lndcal; the angle-band stage runs
    exactly for collection scenes; and, the scene being of one of the two
    conventions, lndsrbm runs exactly when SR is requested and the scene
    is not a collection scene. *)
Theorem runLedaps_stage_matrix xmlfile process_sr w f sr r w' t :
  command_line_args xmlfile process_sr w = (Return (f, sr), w) ->
  reaches_naming_check f w ->
  runLedaps xmlfile process_sr w = (r, w') ->
  invoked w' = (invoked w ++ t)%list ->
  Forall (fun cs => Z.shiftr (snd cs) 8 = 0) t ->
  let base := Py.basename f in
  let old := Py.slice_to 3 base = "LT4" \/ Py.slice_to 3 base = "LT5"
             \/ Py.slice_to 3 base = "LE7" in
  let collection := Py.slice_to 4 base = "LT04" \/ Py.slice_to 4 base = "LT05"
                    \/ Py.slice_to 4 base = "LE07" in
  let programs := map (fun cs => program (fst cs)) t in
  (old -> sr = "True" ->
   programs = ["lndpm"; "lndcal"; "lndsr"; "lndsrbm.py"]) /\
  (collection -> sr <> "True" ->
   programs = ["create_landsat_angle_bands"; "lndpm"; "lndcal"]) /\
  (In "create_landsat_angle_bands" programs <-> collection) /\
  (old \/ collection ->
   (In "lndsrbm.py" programs <-> sr = "True" /\ ~ collection)).
Proof.
  intros Hargs Hreach H E Hall base old collection programs.
  apply runLedaps_cases in H.
  destruct H as [(Hexit & _)|(f' & sr' & Hargs' & H)]; [congruence|].
  rewrite Hargs in Hargs'. injection Hargs' as <- <-.
  destruct H as [(Hno & _)|(_ & t0 & v & Ht & E' & _)]; [contradiction|].
  rewrite E' in E. apply same_trace in E. subst t0.
  pose proof (str_in_prefixes_old (Py.slice_to 3 base)) as Hold.
  pose proof (str_in_prefixes_collection (Py.slice_to 4 base)) as Hcoll.
  pose proof (prefixes_disjoint base) as Hdis.
  fold old in Hold. fold collection in Hcoll. fold base in Ht.
  assert (Hexcl : old -> collection -> False).
  { intros Ho Hc. apply Hold in Ho. apply Hcoll in Hc. apply Hdis in Hc.
    congruence. }
  pipeline_cases Ht;
    [assert (Ho : old) by (now apply Hold);
     assert (Hnc : ~ collection) by (intros Hc; exact (Hexcl Ho Hc))
    |assert (Hc : collection) by (now apply Hcoll);
     assert (Hno : ~ old) by (intros Ho; exact (Hexcl Ho Hc))
    |assert (Hno : ~ old) by (intros Ho; apply Hold in Ho; discriminate);
     assert (Hnc : ~ collection)
       by (intros Hc; apply Hcoll in Hc; discriminate)].
  3:{ destruct Ht as [-> _]. subst programs. simpl. tauto. }
  all: unfold stages_of in Ht;
    (destruct (String.eqb sr "True") eqn:Esr;
     [apply String.eqb_eq in Esr|apply String.eqb_neq in Esr]);
    cbn [app negb] in Ht; invert_trace;
    repeat match goal with
           | Hf : Forall _ (_ :: _) |- _ => inversion Hf; clear Hf; subst
           end;
    simpl in *; try contradiction;
    subst programs; simpl;
    (split; [intros; reflexivity || tauto || congruence|]);
    (split; [intros; reflexivity || tauto || congruence|]);
    (split; [split; [intros Hin; each_program Hin; try tauto
                    |intros; tauto || contradiction]|]);
    intros _;
    (split; [intros Hin; each_program Hin;
             try (split; [reflexivity || assumption|assumption])
            |intros [Hsr Hn]; try congruence; try contradiction; tauto]).
Qed.

Lemma append_assoc (s1 s2 s3 : string) : (s1 ++ s2) ++ s3 = s1 ++ (s2 ++ s3).
Proof. induction s1 as [|c s1 IH]; simpl; congruence. Qed.

(** C8.  Take an invocation of lndcal or lndsr in a run on the XML file
    [f], [xml] being the scene identifier and [plain] the command up to its parameter file.  For
    a collection scene the command is [plain] followed by a blank and
    [--process_collection], which the shell passes as one more, last
    argument.  For a pre-collection scene it is [plain] followed by a blank
    and nothing else: the arguments are those of [plain], none of them
    empty. *)
Theorem runLedaps_collection_flag xmlfile process_sr w f sr r w' t cmd status :
  command_line_args xmlfile process_sr w = (Return (f, sr), w) ->
  runLedaps xmlfile process_sr w = (r, w') ->
  invoked w' = (invoked w ++ t)%list ->
  In (cmd, status) t ->
  program cmd = "lndcal" \/ program cmd = "lndsr" ->
  let base := Py.basename f in
  let xml := Py.re_sub_xml base in
  let plain := program cmd ++ " --pfile " ++ program cmd ++ "." ++ xml ++ ".txt" in
  (Py.slice_to 4 base = "LT04" \/ Py.slice_to 4 base = "LT05"
   \/ Py.slice_to 4 base = "LE07" ->
   cmd = plain ++ " " ++ "--process_collection" /\
   words cmd = (words plain ++ ["--process_collection"])%list) /\
  (Py.slice_to 3 base = "LT4" \/ Py.slice_to 3 base = "LT5"
   \/ Py.slice_to 3 base = "LE7" ->
   cmd = plain ++ " " /\
   words cmd = words plain /\
   ~ In "" (words cmd)).
Proof.
  intros Hargs H E Hin Hprog base xml plain.
  destruct (runLedaps_trace _ _ _ _ _ _ _ _ Hargs H E) as [->|[v Ht]];
    [destruct Hin|].
  pose proof (str_in_prefixes_old (Py.slice_to 3 base)) as Hold.
  pose proof (str_in_prefixes_collection (Py.slice_to 4 base)) as Hcoll.
  pose proof (prefixes_disjoint base) as Hdis.
  fold base in Ht. fold xml in Ht.
  assert (Hcmd :
    (Py.str_in (Py.slice_to 3 base) prefixes_old = true /\
     cmd = plain ++ " ") \/
    (Py.str_in (Py.slice_to 4 base) prefixes_collection = true /\
     cmd = plain ++ " " ++ "--process_collection")).
  { pipeline_cases Ht; [| |destruct Ht as [-> _]; destruct Hin];
      [left|right]; (split; [reflexivity|]);
      unfold stages_of in Ht;
      destruct (String.eqb sr "True");
      cbn [app negb] in Ht; invert_trace; each_command Hin;
      subst plain; simpl in Hprog |- *;
      destruct Hprog as [Hprog|Hprog]; try discriminate Hprog;
      rewrite append_assoc; reflexivity. }
  assert (Hplain : forall s, words (plain ++ " " ++ s) = (words plain ++ words s)%list)
    by (intros s; apply words_blank).
  split.
  - intros Hc. apply Hcoll in Hc.
    destruct Hcmd as [[Ho _]|[_ Hcmd]].
    + apply Hdis in Hc. congruence.
    + split; [exact Hcmd|]. rewrite Hcmd at 1. now rewrite Hplain.
  - intros Ho. apply Hold in Ho.
    destruct Hcmd as [[_ Hcmd]|[Hc _]].
    + split; [exact Hcmd|]. split; [|apply fields_nonempty].
      rewrite Hcmd at 1. apply words_trailing_blank.
    + apply Hdis in Hc. congruence.
Qed.

(** ** Further properties of the calendar and the file names *)

Lemma range_covers lo hi d : lo <= d < hi -> In d (Py.range lo hi).
Proof.
  intros H. unfold Py.range. apply in_map_iff.
  exists (Z.to_nat (d - lo)). split; [lia|]. apply in_seq. lia.
Qed.

Lemma str_3digit_exact d : 100 <= d < 1000 -> String.length (Py.str d) = 3%nat.
Proof.
  intros H.
  assert (Hall : forallb (fun d => Nat.eqb (String.length (Py.str d)) 3)
                         (Py.range 100 1000) = true) by (vm_compute; reflexivity).
  rewrite forallb_forall in Hall.
  apply Nat.eqb_eq. apply Hall. now apply range_covers.
Qed.

(** The padded day reads back as the day. *)
Lemma dayofyear_decode d :
  0 <= d ->
  option_map Z.of_int (NilZero.int_of_string (dayofyear d)) = Some d.
Proof.
  intros H.
  assert (Hstr : exists u, u <> Decimal.Nil /\
                   Py.str d = NilZero.string_of_uint u /\ Z.of_uint u = d).
  { unfold Py.str. destruct d as [|p|p]; [| |lia].
    - exists (Decimal.D0 Decimal.Nil). repeat split. discriminate.
    - exists (Pos.to_uint p). split; [apply Unsigned.to_uint_nonnil|].
      split; [reflexivity|].
      unfold Z.of_uint. now rewrite Unsigned.of_to. }
  destruct Hstr as (u & Hu & Hs & Hd).
  assert (Hparse : NilEmpty.uint_of_string (Py.str d) = Some u).
  { rewrite Hs. pose proof (NilZero.usu u Hu) as E.
    unfold NilZero.uint_of_string in E.
    destruct (NilZero.string_of_uint u) eqn:Es; [|exact E].
    destruct u; discriminate. }
  assert (Hminus : forall s, NilEmpty.uint_of_string s = Some u ->
            s <> "" -> NilZero.int_of_string s = Some (Decimal.Pos u)).
  { intros s Hp Hne. destruct s as [|a s]; [congruence|].
    unfold NilZero.int_of_string.
    destruct (Ascii.eqb a "-") eqn:Ea.
    - apply Ascii.eqb_eq in Ea. subst a. simpl in Hp.
      destruct (NilEmpty.uint_of_string s); discriminate.
    - unfold NilZero.uint_of_string. now rewrite Hp. }
  assert (Hne : Py.str d <> "").
  { intros E. rewrite E in Hparse. simpl in Hparse. congruence. }
  unfold dayofyear.
  destruct (d <? 10); [|destruct ((9 <? d) && (d <? 100))].
  - unfold NilZero.int_of_string. simpl. rewrite Hparse. simpl. exact (f_equal Some Hd).
  - unfold NilZero.int_of_string. simpl. rewrite Hparse. simpl. exact (f_equal Some Hd).
  - rewrite (Hminus _ Hparse Hne). simpl. exact (f_equal Some Hd).
Qed.

Lemma dayofyear_inj d1 d2 :
  0 <= d1 -> 0 <= d2 -> dayofyear d1 = dayofyear d2 -> d1 = d2.
Proof.
  intros H1 H2 E. pose proof (dayofyear_decode d1 H1) as E1.
  rewrite E, (dayofyear_decode d2 H2) in E1. congruence.
Qed.

Lemma append_inj_l (a x y : string) : a ++ x = a ++ y -> x = y.
Proof. induction a as [|c a IH]; simpl; [tauto|]. intros [= E]. auto. Qed.

Lemma string_length_append (a b : string) :
  String.length (a ++ b) = (String.length a + String.length b)%nat.
Proof. induction a as [|c a IH]; simpl; congruence. Qed.

Lemma append_inj_r (s : string) : forall x y, x ++ s = y ++ s -> x = y.
Proof.
  induction x as [|c x IH]; intros [|c' y] E; simpl in E.
  - reflexivity.
  - exfalso. apply (f_equal String.length) in E. simpl in E.
    rewrite string_length_append in E. lia.
  - exfalso. apply (f_equal String.length) in E. simpl in E.
    rewrite string_length_append in E. lia.
  - injection E as -> E. f_equal. auto.
Qed.

(** X1.  The leap-year test has the period of the Gregorian calendar:
    [isLeapYear] gives the same answer for [year] and [year + 400], for
    every integer, negative years included. *)
Theorem isLeapYear_period year : isLeapYear (year + 400) = isLeapYear year.
Proof.
  unfold isLeapYear.
  replace ((year + 400) mod 4) with (year mod 4)
    by (symmetry; apply (Z_mod_plus_full year 100 4)).
  replace ((year + 400) mod 100) with (year mod 100)
    by (symmetry; apply (Z_mod_plus_full year 4 100)).
  replace ((year + 400) mod 400) with (year mod 400)
    by (symmetry; apply (Z_mod_plus_full year 1 400)).
  reflexivity.
Qed.

(** X2.  For every day from 0 to 999, so for every day of a year, the
    padded day has exactly three characters. *)
Theorem dayofyear_width d :
  0 <= d <= 999 -> String.length (dayofyear d) = 3%nat.
Proof.
  intros H. unfold dayofyear.
  destruct (d <? 10) eqn:H10.
  - apply Z.ltb_lt in H10. simpl. now rewrite str_digit_length by lia.
  - apply Z.ltb_ge in H10. destruct (d <? 100) eqn:H100.
    + apply Z.ltb_lt in H100.
      replace (9 <? d) with true by (symmetry; apply Z.ltb_lt; lia).
      simpl. now rewrite str_2digit_length by lia.
    + apply Z.ltb_ge in H100. rewrite andb_false_r.
      apply str_3digit_exact. lia.
Qed.

(** X3.  A negative day is not padded to three digits: the two zeros go in
    front of the minus sign, as in [00-5] for day -5. *)
Theorem dayofyear_negative d :
  d < 0 -> dayofyear d = "00-" ++ Py.str (- d).
Proof.
  intros H. destruct d as [|p|p]; try lia.
  unfold dayofyear. reflexivity.
Qed.

(** X4.  Two different days, neither negative, never share an ancillary
    file: for one base directory and one year the REANALYSIS file names of
    two days are different, and so are the TOMS file names. *)
Theorem ancillary_files_distinct ancdir year d1 d2 :
  0 <= d1 -> 0 <= d2 -> d1 <> d2 ->
  ncepFile ancdir year (dayofyear d1) <> ncepFile ancdir year (dayofyear d2) /\
  tomsFile ancdir year (dayofyear d1) <> tomsFile ancdir year (dayofyear d2).
Proof.
  intros H1 H2 Hne. unfold ncepFile, tomsFile.
  split; intros E; apply Hne; apply dayofyear_inj; try assumption;
    do 5 apply append_inj_l in E; now apply append_inj_r in E.
Qed.

(** ** Further properties of [findAncillary] *)

(** X5.  [findAncillary] only looks: whatever the arguments, it leaves the
    machine, the working directory and the list of invoked commands as they
    were, and it logs nothing, except for the one error line when
    [ANC_PATH] is not set. *)
Theorem findAncillary_frame year doy w :
  env (snd (findAncillary year doy w)) = env w /\
  cwd (snd (findAncillary year doy w)) = cwd w /\
  invoked (snd (findAncillary year doy w)) = invoked w /\
  (logged (snd (findAncillary year doy w)) = logged w \/
   (environ_get os (env w) "ANC_PATH" = None /\
    logged (snd (findAncillary year doy w)) =
    (logged w ++
     [(LOG_ERROR, "ANC_PATH environment variable not set... exiting")])%list)).
Proof.
  destruct (environ_get os (env w) "ANC_PATH") as [base|] eqn:Hanc.
  - rewrite (findAncillary_configured _ _ _ _ Hanc). simpl. tauto.
  - rewrite (findAncillary_unconfigured _ _ _ Hanc). simpl.
    repeat split. right. now split.
Qed.

(** X6.  With [ANC_PATH] set: on a machine where no path is a file every
    entry of the result is [False], and where every path is a file every
    entry is [True]; in both cases there is one entry for each day to
    evaluate. *)
Theorem findAncillary_uniform year doy w base :
  environ_get os (env w) "ANC_PATH" = Some base ->
  ((forall path, isfile os (env w) (cwd w) path = false) ->
   findAncillary year doy w =
   (Return (Some (repeat false (Z.to_nat (ndays_of w year doy)))), w)) /\
  ((forall path, isfile os (env w) (cwd w) path = true) ->
   findAncillary year doy w =
   (Return (Some (repeat true (Z.to_nat (ndays_of w year doy)))), w)).
Proof.
  intros Hanc. rewrite (findAncillary_configured _ _ _ _ Hanc).
  assert (Hlen : forall b : bool,
            repeat b (List.length (Py.range 1 (ndays_of w year doy + 1))) =
            repeat b (Z.to_nat (ndays_of w year doy))).
  { intros b. rewrite range_length. f_equal. lia. }
  split; intros Hall; rewrite <- Hlen, <- map_const; do 3 f_equal;
    apply map_ext; intros d; unfold both_isfile; now rewrite !Hall.
Qed.

(** X7.  A scan and a single-day call agree: with [ANC_PATH] set, for every
    day [d] of a scan of [year] (from 1 to the number of days scanned), entry
    [d - 1] of the scan is the one entry of [findAncillary year d]. *)
Theorem findAncillary_scan_agrees year d w base :
  environ_get os (env w) "ANC_PATH" = Some base ->
  1 <= d <= ndays_of w year (-99) ->
  exists l b,
    findAncillary year (-99) w = (Return (Some l), w) /\
    findAncillary year d w = (Return (Some [b]), w) /\
    nth_error l (Z.to_nat (d - 1)) = Some b.
Proof.
  intros Hanc Hd.
  rewrite !(findAncillary_configured _ _ _ _ Hanc).
  assert (Hdoy : (d =? -99) = false) by (apply Z.eqb_neq; lia).
  do 2 eexists. split; [reflexivity|]. split.
  - assert (Hn : ndays_of w year d = 1)
      by (unfold ndays_of; now rewrite Hdoy).
    rewrite Hn. simpl. reflexivity.
  - rewrite nth_error_map. unfold Py.range.
    rewrite nth_error_map, nth_error_seq.
    assert (Hlt : (Z.to_nat (d - 1) <? Z.to_nat (ndays_of w year (-99) + 1 - 1))%nat
                  = true) by (apply Nat.ltb_lt; lia).
    rewrite Hlt. cbn [option_map]. rewrite Hdoy. cbn [negb].
    change (negb (-99 =? -99)) with false. cbv iota.
    do 2 f_equal. lia.
Qed.

(** ** Further properties of [runLedaps] *)

Lemma trace_of_success stages t v :
  trace_of stages t v ->
  v = SUCCESS ->
  Forall (fun cs => Z.shiftr (snd cs) 8 = 0) t /\
  map fst t = map command stages.
Proof.
  induction 1 as [|s rest st Hko|s rest st t v Hok Ht IH]; intros Hv.
  - split; constructor.
  - discriminate.
  - destruct (IH Hv) as [Hall Hcmds]. split.
    + constructor; assumption.
    + simpl. now rewrite Hcmds.
Qed.

Lemma exit_code_zero status : Z.shiftr status 8 = 0 <-> 0 <= status < 256.
Proof.
  rewrite Z.shiftr_div_pow2 by lia. change (2 ^ 8) with 256.
  rewrite Z.div_small_iff by lia. lia.
Qed.

(** X8.  The commands of a run, whether it succeeds or stops at a failure,
    are the first few stages of one of the four full pipelines, in their
    order: a run never invokes anything but the five programs, never one of
    them twice, and never more than four commands. *)
Theorem runLedaps_programs_prefix xmlfile process_sr w r w' t :
  runLedaps xmlfile process_sr w = (r, w') ->
  invoked w' = (invoked w ++ t)%list ->
  exists pipeline rest,
    In pipeline
       [ ["lndpm"; "lndcal"];
         ["lndpm"; "lndcal"; "lndsr"; "lndsrbm.py"];
         ["create_landsat_angle_bands"; "lndpm"; "lndcal"];
         ["create_landsat_angle_bands"; "lndpm"; "lndcal"; "lndsr"] ] /\
    pipeline = (map (fun cs => program (fst cs)) t ++ rest)%list.
Proof.
  intros H E. apply runLedaps_cases in H.
  assert (Hnil : invoked w' = invoked w -> t = []).
  { intros E'. rewrite E' in E. rewrite <- (app_nil_r (invoked w)) in E at 1.
    symmetry. exact (same_trace _ _ _ E). }
  assert (Hempty : t = [] ->
    exists pipeline rest,
      In pipeline
         [ ["lndpm"; "lndcal"];
           ["lndpm"; "lndcal"; "lndsr"; "lndsrbm.py"];
           ["create_landsat_angle_bands"; "lndpm"; "lndcal"];
           ["create_landsat_angle_bands"; "lndpm"; "lndcal"; "lndsr"] ] /\
      pipeline = (map (fun cs => program (fst cs)) t ++ rest)%list).
  { intros ->. eexists _, _. split; [left; reflexivity|reflexivity]. }
  destruct H as [(_ & _ & Hw)|(f & sr & _ & [(_ & E' & _)|(_ & t' & v & Ht & E' & _)])].
  - apply Hempty, Hnil. now subst.
  - now apply Hempty, Hnil.
  - rewrite E' in E. apply same_trace in E. subst t'.
    pipeline_cases Ht; [| |destruct Ht as [Ht _]; now apply Hempty];
      unfold stages_of in Ht; destruct (String.eqb sr "True");
      cbn [app negb] in Ht; invert_trace; simpl;
      eexists _, _;
      first [ split; [left; reflexivity|reflexivity]
            | split; [right; left; reflexivity|reflexivity]
            | split; [right; right; left; reflexivity|reflexivity]
            | split; [right; right; right; left; reflexivity|reflexivity] ].
Qed.

Lemma trace_of_value stages t v :
  trace_of stages t v -> v = ERROR \/ v = SUCCESS.
Proof. induction 1; auto. Qed.

Lemma stages_of_programs base_xmlfile xml sr processing_collection :
  In "lndpm" (map program (map command
       (stages_of base_xmlfile xml sr processing_collection))) /\
  In "lndcal" (map program (map command
       (stages_of base_xmlfile xml sr processing_collection))).
Proof.
  unfold stages_of.
  destruct processing_collection, (String.eqb sr "True"); simpl; tauto.
Qed.

(** X9.  [runLedaps] returns [ERROR] or [SUCCESS] and nothing else; and when
    it returns [SUCCESS] the working directory is restored, every command
    it invoked came back with exit code zero, and [lndpm] and [lndcal] are
    among them. *)
Theorem runLedaps_success xmlfile process_sr w c w' t :
  runLedaps xmlfile process_sr w = (Return c, w') ->
  invoked w' = (invoked w ++ t)%list ->
  (c = ERROR \/ c = SUCCESS) /\
  (c = SUCCESS ->
   cwd w' = cwd w /\
   Forall (fun cs => Z.shiftr (snd cs) 8 = 0) t /\
   In "lndpm" (map (fun cs => program (fst cs)) t) /\
   In "lndcal" (map (fun cs => program (fst cs)) t)).
Proof.
  intros H E. apply runLedaps_cases in H.
  destruct H as [(_ & Hr & _)|(f & sr & _ & [(_ & _ & _ & Hr)|(_ & t' & v & Ht & E' & Hr)])].
  - discriminate.
  - destruct Hr as [Hr|[? _]]; [|discriminate]. injection Hr as Hc.
    split; [now left|]. intros Hs. rewrite Hs in Hc. discriminate.
  - destruct Hr as [[Hr Hcwd]|[? _]]; [|discriminate]. injection Hr as Hc.
    subst v. rewrite E' in E. apply same_trace in E. subst t'.
    assert (Hmap : map (fun cs : string * Z => program (fst cs)) t
                   = map program (map fst t)) by (now rewrite map_map).
    pipeline_cases Ht.
    + split; [exact (trace_of_value _ _ _ Ht)|]. intros Hs.
      destruct (trace_of_success _ _ _ Ht Hs) as [Hall Hcmds].
      rewrite Hmap, Hcmds. split; [exact Hcwd|]. split; [exact Hall|].
      apply stages_of_programs.
    + split; [exact (trace_of_value _ _ _ Ht)|]. intros Hs.
      destruct (trace_of_success _ _ _ Ht Hs) as [Hall Hcmds].
      rewrite Hmap, Hcmds. split; [exact Hcwd|]. split; [exact Hall|].
      apply stages_of_programs.
    + destruct Ht as [_ Hc]. split; [now left|].
      intros Hs. rewrite Hs in Hc. discriminate.
Qed.

(** X10.  The exit code is read off the wait status alone.  A command that
    comes back with a status from 0 to 255, as one killed by a signal
    does, is not taken as failed: another command follows it or the run
    goes on to its successful end.  A status of 256 or more, or a negative
    one, ends the run without success. *)
Theorem runLedaps_low_status xmlfile process_sr w r w' pre cmd status post :
  runLedaps xmlfile process_sr w = (r, w') ->
  invoked w' = (invoked w ++ pre ++ (cmd, status) :: post)%list ->
  (0 <= status < 256 ->
   post <> [] \/ r = Return SUCCESS \/ r = Raise OSError) /\
  (status < 0 \/ 256 <= status -> post = [] /\ r <> Return SUCCESS).
Proof.
  intros H Hinv. apply runLedaps_cases in H.
  destruct H as [(_ & _ & E)|(f & sr & _ & [(_ & E & _)|(_ & H)])].
  - exfalso. subst w'. eapply no_new_command; eassumption.
  - exfalso. rewrite E in Hinv. eapply no_new_command; eassumption.
  - destruct H as (t & v & Ht & E & Hr).
    rewrite E in Hinv. apply app_inv_head in Hinv. subst t.
    assert (Hsplit : (Z.shiftr status 8 <> 0 -> post = [] /\ v = ERROR) /\
                     (Z.shiftr status 8 = 0 -> post <> [] \/ v = SUCCESS)).
    { pipeline_cases Ht.
      - eapply trace_of_split; [exact Ht|reflexivity].
      - eapply trace_of_split; [exact Ht|reflexivity].
      - destruct Ht as [Ht _]. destruct pre; discriminate. }
    destruct Hsplit as [Hko Hok]. split.
    + intros Hlow. apply exit_code_zero in Hlow.
      destruct (Hok Hlow) as [?|Hv]; [now left|]. right.
      destruct Hr as [[-> _]|[-> _]]; [left; now rewrite Hv|now right].
    + intros Hhigh.
      assert (Hnz : Z.shiftr status 8 <> 0)
        by (rewrite exit_code_zero; lia).
      destruct (Hko Hnz) as [Hp Hv]. split; [exact Hp|].
      destruct Hr as [[-> _]|[-> _]]; [rewrite Hv|]; discriminate.
Qed.

(** X11.  When the XML file is not there, or its directory is not
    writable, [runLedaps] returns [ERROR] at once: the machine, the working
    directory and the list of invoked commands are untouched, and the last
    line logged is an error. *)
Theorem runLedaps_early_error xmlfile process_sr w f sr :
  command_line_args xmlfile process_sr w = (Return (f, sr), w) ->
  isfile os (env w) (cwd w) f = false \/
  access_W_OK os (env w) (cwd w) (Py.dirname (abspath os (cwd w) f)) = false ->
  exists l msg,
    runLedaps xmlfile process_sr w =
    (Return ERROR,
     {| env := env w; cwd := cwd w; invoked := invoked w;
        logged := (logged w ++ l ++ [(LOG_ERROR, msg)])%list |}).
Proof.
  intros Hargs Hbad. unfold runLedaps. unfold bind at 1. rewrite Hargs.
  unfold bind at 1, logger at 1. unfold bind at 1, os_path_isfile at 1.
  cbn [env cwd].
  destruct (isfile os (env w) (cwd w) f) eqn:Hfile; cbn [negb].
  - destruct Hbad as [?|Hacc]; [discriminate|].
    unfold bind at 1, logger at 1. unfold bind at 1, os_getcwd at 1.
    unfold bind at 1, os_path_abspath at 1.
    unfold bind at 1, os_access_W_OK at 1. cbn [env cwd].
    rewrite Hacc. cbn [negb]. unfold bind, logger, ret. cbn [env cwd invoked logged].
    eexists [_; _], _. rewrite <- !app_assoc. reflexivity.
  - unfold bind, logger, ret. cbn [env cwd invoked logged].
    eexists [_], _. rewrite <- !app_assoc. reflexivity.
Qed.

(** X12.  Called without [xmlfile], [runLedaps] is the call on what the
    command line gives: the file of the [--xml] option and the value of
    [--process_sr], or ["True"] when that option is absent, whatever was
    passed as [process_sr].  With no [--xml] option, or a command line the
    parser rejects, it leaves through [SystemExit] with nothing logged or
    run. *)
Theorem runLedaps_command_line process_sr w :
  match parse_args os (env w) with
  | Some (Some f, Some sr) => runLedaps None process_sr w = runLedaps (Some f) sr w
  | Some (Some f, None) => runLedaps None process_sr w = runLedaps (Some f) "True" w
  | _ => runLedaps None process_sr w = (Raise SystemExit, w)
  end.
Proof.
  unfold runLedaps. unfold bind at 1 3 5.
  unfold command_line_args, bind, parser_parse_args, parser_error, raise, ret.
  destruct (parse_args os (env w)) as [[[f|] [sr|]]|]; reflexivity.
Qed.

(** *** What the log ends with *)

Lemma ends_log_after w0 w w' c l0 :
  logged w = (logged w0 ++ l0)%list -> ends_log w w' c -> ends_log w0 w' c.
Proof.
  intros E (l & lvl & msg & Hl & Hc).
  exists (l0 ++ l)%list, lvl, msg. split; [|exact Hc].
  rewrite Hl, E, <- !app_assoc. reflexivity.
Qed.

Lemma run_stage_ends_log cmdstr errmsg mydir rest w c w' :
  (forall w1, rest w1 = (Return c, w') -> ends_log w1 w' c) ->
  run_stage cmdstr errmsg mydir rest w = (Return c, w') ->
  ends_log w w' c.
Proof.
  intros Hrest.
  unfold run_stage, bind, commands_getstatusoutput, logger, os_chdir, ret.
  intros H.
  destruct (popen os (env w) (cwd w) cmdstr) as [[status output] e'].
  destruct (Z.shiftr status 8 =? 0); cbn in H.
  - apply Hrest in H. eapply ends_log_after; [|exact H]. reflexivity.
  - destruct (chdir_ok os e' (cwd w) mydir); [|discriminate].
    injection H as <- <-.
    exists [(INFO, output)], LOG_ERROR, errmsg. cbn.
    split; [now rewrite <- app_assoc|]. left. now split.
Qed.

Lemma exec_stages_ends_log mydir stages :
  forall w c w',
    exec_stages mydir stages w = (Return c, w') -> ends_log w w' c.
Proof.
  induction stages as [|s rest IH]; intros w c w' H.
  - simpl in H. unfold bind, os_chdir, logger, ret in H.
    destruct (chdir_ok os (env w) (cwd w) mydir); [|discriminate].
    injection H as <- <-.
    exists [], INFO, "Completion of LEDAPS.". cbn. split; [reflexivity|].
    right. now repeat split.
  - simpl in H. destruct (announce s) as [msg|].
    + unfold bind at 1, logger at 1 in H.
      apply run_stage_ends_log in H; [|exact (fun w1 => IH w1 c w')].
      eapply ends_log_after; [|exact H]. reflexivity.
    + apply run_stage_ends_log in H; [exact H|exact (fun w1 => IH w1 c w')].
Qed.

Lemma classify_and_run_ends_log base_xmlfile xml process_sr mydir w c w' :
  classify_and_run base_xmlfile xml process_sr mydir w = (Return c, w') ->
  ends_log w w' c.
Proof.
  unfold classify_and_run.
  destruct (Py.str_in (Py.slice_to 3 base_xmlfile) prefixes_old);
    [|destruct (Py.str_in (Py.slice_to 4 base_xmlfile) prefixes_collection)].
  - unfold bind at 1, logger at 1. rewrite run_stages_exec. intros H.
    apply exec_stages_ends_log in H.
    eapply ends_log_after; [|exact H]. reflexivity.
  - unfold bind at 1, logger at 1. rewrite run_stages_exec. intros H.
    apply exec_stages_ends_log in H.
    eapply ends_log_after; [|exact H]. reflexivity.
  - unfold bind, logger, os_chdir, ret. cbn. intros H.
    destruct (chdir_ok os (env w) (cwd w) mydir); [|discriminate].
    injection H as <- <-. eexists [], LOG_ERROR, _. cbn.
    split; [reflexivity|]. left. now split.
Qed.

(** X13.  Whenever [runLedaps] returns, the last line it has logged tells
    the result: an error-level line when it returns [ERROR], and the line
    [Completion of LEDAPS.] at info level when it returns [SUCCESS]. *)
Theorem runLedaps_last_log xmlfile process_sr w c w' :
  runLedaps xmlfile process_sr w = (Return c, w') ->
  exists l lvl msg,
    logged w' = (logged w ++ l ++ [(lvl, msg)])%list /\
    ((c = ERROR /\ lvl = LOG_ERROR) \/
     (c = SUCCESS /\ lvl = INFO /\ msg = "Completion of LEDAPS.")).
Proof.
  intros H. change (ends_log w w' c).
  unfold runLedaps in H. unfold bind at 1 in H.
  destruct (command_line_args xmlfile process_sr w) as [a w0] eqn:Hargs.
  apply command_line_args_cases in Hargs.
  destruct Hargs as [-> [[_ ->]|(f & sr & ->)]]; [discriminate|].
  unfold bind at 1, logger at 1 in H. unfold bind at 1, os_path_isfile at 1 in H.
  cbn [env cwd] in H.
  destruct (isfile os (env w) (cwd w) f); cbn [negb] in H.
  2:{ unfold bind, logger, ret in H. injection H as <- <-.
      eexists [_], LOG_ERROR, _. cbn. split; [now rewrite <- app_assoc|].
      left. now split. }
  unfold bind at 1, logger at 1 in H. unfold bind at 1, os_getcwd at 1 in H.
  unfold bind at 1, os_path_abspath at 1 in H.
  unfold bind at 1, os_access_W_OK at 1 in H. cbn [env cwd] in H.
  destruct (access_W_OK os (env w) (cwd w)
              (Py.dirname (abspath os (cwd w) f))); cbn [negb] in H.
  2:{ unfold bind, logger, ret in H. injection H as <- <-.
      eexists [_; _], LOG_ERROR, _. cbn. split; [now rewrite <- !app_assoc|].
      left. now split. }
  unfold bind at 1, logger at 1 in H. unfold bind at 1, os_chdir at 1 in H.
  cbn [env cwd] in H.
  destruct (chdir_ok os (env w) (cwd w)
              (Py.dirname (abspath os (cwd w) f))); [|discriminate].
  apply classify_and_run_ends_log in H.
  eapply ends_log_after; [|exact H]. cbn. rewrite <- !app_assoc. reflexivity.
Qed.

(** *** The scene identifier *)

Lemma substring_prefix (s t : string) :
  substring 0 (String.length s) (s ++ t) = s.
Proof. induction s as [|c s IH]; simpl; [now destruct t|now rewrite IH]. Qed.

Lemma substring_whole (t : string) : substring 0 (String.length t) t = t.
Proof. induction t as [|c t IH]; simpl; [reflexivity|now rewrite IH]. Qed.

Lemma substring_suffix (s t : string) :
  substring (String.length s) (String.length t) (s ++ t) = t.
Proof. induction s as [|c s IH]; simpl; [apply substring_whole|exact IH]. Qed.

Lemma endswith_append (s t : string) : Py.endswith t (s ++ t) = true.
Proof.
  unfold Py.endswith. rewrite string_length_append.
  replace (String.length s + String.length t - String.length t)%nat
    with (String.length s) by lia.
  rewrite substring_suffix, String.eqb_refl, andb_true_r.
  apply Nat.leb_le. lia.
Qed.

(** X14.  The scene identifier of a file named [<id>.xml] is [<id>]: the
    substitution takes off the final [.xml], and only that one, whatever
    [<id>] is. *)
Theorem re_sub_xml_strips s : Py.re_sub_xml (s ++ ".xml") = s.
Proof.
  unfold Py.re_sub_xml. rewrite endswith_append. unfold Py.slice_to.
  rewrite string_length_append. simpl String.length.
  replace (String.length s + 4 - 4)%nat with (String.length s) by lia.
  apply substring_prefix.
Qed.

(** X15.  The commands of a run that returns [SUCCESS], in full and in
    order, for the XML file [f] and the [process_sr] value [sr]: for a
    collection scene the angle-band command first; then [lndpm] and
    [lndcal]; then, when [sr] is ["True"], [lndsr], followed by [lndsrbm.py]
    unless the scene is a collection scene.  [lndcal] and [lndsr] end with
    [--process_collection] for a collection scene and with a blank
    otherwise. *)
Theorem runLedaps_success_commands xmlfile process_sr w f sr w' t :
  command_line_args xmlfile process_sr w = (Return (f, sr), w) ->
  runLedaps xmlfile process_sr w = (Return SUCCESS, w') ->
  invoked w' = (invoked w ++ t)%list ->
  let base := Py.basename f in
  let xml := Py.re_sub_xml base in
  let collection := Py.str_in (Py.slice_to 4 base) prefixes_collection in
  let opt := if collection then "--process_collection" else "" in
  let lndpm :=
    "lndpm --xml " ++ base ++
    (if String.eqb sr "True" then " --process_sr=true"
     else " --process_sr=false") in
  let lndcal := "lndcal --pfile lndcal." ++ xml ++ ".txt " ++ opt in
  let lndsr := "lndsr --pfile lndsr." ++ xml ++ ".txt " ++ opt in
  let lndsrbm := "lndsrbm.py -f lndsr." ++ xml ++ ".txt" in
  let angle_bands := "create_landsat_angle_bands --xml " ++ base in
  map fst t =
  ((if collection then [angle_bands] else [])
   ++ [lndpm; lndcal]
   ++ (if String.eqb sr "True"
       then lndsr :: (if collection then [] else [lndsrbm])
       else []))%list.
Proof.
  intros Hargs H E base xml collection opt lndpm lndcal lndsr lndsrbm angle.
  apply runLedaps_cases in H.
  destruct H as [(_ & Hr & _)|(f' & sr' & Hargs' & H)]; [discriminate|].
  rewrite Hargs in Hargs'. injection Hargs' as <- <-.
  destruct H as [(_ & _ & _ & [Hr|[Hr _]])|(_ & t' & v & Ht & E' & Hr)];
    try discriminate.
  destruct Hr as [[Hr _]|[Hr _]]; [|discriminate]. injection Hr as <-.
  rewrite E' in E. apply same_trace in E. subst t'.
  pose proof (prefixes_disjoint base) as Hdis. fold collection in Hdis.
  fold base in Ht. fold xml in Ht.
  pipeline_cases Ht.
  - destruct (trace_of_success _ _ _ Ht eq_refl) as [_ ->].
    assert (Hc : collection = false).
    { subst collection.
      destruct (Py.str_in (Py.slice_to 4 base) prefixes_collection);
        [|reflexivity]. specialize (Hdis eq_refl). congruence. }
    subst lndpm lndcal lndsr lndsrbm angle opt. rewrite Hc. unfold stages_of.
    destruct (String.eqb sr "True"); reflexivity.
  - destruct (trace_of_success _ _ _ Ht eq_refl) as [_ ->].
    subst lndpm lndcal lndsr lndsrbm angle opt collection. try rewrite E4.
    unfold stages_of. destruct (String.eqb sr "True"); reflexivity.
  - destruct Ht as [_ Hv]. discriminate.
Qed.

(** *** The stage named in the error line *)



Lemma slice_to_length n s :
  (String.length (Py.slice_to n s) <= String.length s)%nat.
Proof.
  unfold Py.slice_to. revert s.
  induction n as [|n IH]; intros [|c s]; simpl; try lia.
  specialize (IH s). lia.
Qed.

(** X17.  A base name of fewer than three characters, the empty one
    included, is of neither naming convention: a run on such a file invokes
    no command and does not return [SUCCESS]. *)
Theorem runLedaps_short_name xmlfile process_sr w f sr r w' :
  command_line_args xmlfile process_sr w = (Return (f, sr), w) ->
  runLedaps xmlfile process_sr w = (r, w') ->
  (String.length (Py.basename f) < 3)%nat ->
  invoked w' = invoked w /\ r <> Return SUCCESS.
Proof.
  intros Hargs H Hshort. apply runLedaps_cases in H.
  destruct H as [(_ & -> & ->)|(f' & sr' & Hargs' & H)];
    [split; [reflexivity|discriminate]|].
  rewrite Hargs in Hargs'. injection Hargs' as <- <-.
  destruct H as [(_ & E & _ & Hr)|(_ & t & v & Ht & E & Hr)].
  - split; [exact E|]. destruct Hr as [->|[-> _]]; discriminate.
  - assert (H3 : Py.str_in (Py.slice_to 3 (Py.basename f)) prefixes_old = false).
    { destruct (Py.str_in _ prefixes_old) eqn:E3; [|reflexivity].
      apply str_in_prefixes_old in E3.
      pose proof (slice_to_length 3 (Py.basename f)) as L.
      destruct E3 as [E3|[E3|E3]]; rewrite E3 in L; simpl in L; lia. }
    assert (H4 : Py.str_in (Py.slice_to 4 (Py.basename f)) prefixes_collection
                 = false).
    { destruct (Py.str_in _ prefixes_collection) eqn:E4; [|reflexivity].
      apply str_in_prefixes_collection in E4.
      pose proof (slice_to_length 4 (Py.basename f)) as L.
      destruct E4 as [E4|[E4|E4]]; rewrite E4 in L; simpl in L; lia. }
    unfold pipeline_trace in Ht. rewrite H3, H4 in Ht. destruct Ht as [-> ->].
    split; [now rewrite E, app_nil_r|].
    destruct Hr as [[-> _]|[-> _]]; discriminate.
Qed.

End Script.

(** ** The statements at work on the small machine *)

Lemma sim_chdir_permitted : chdir_permitted Sim.os.
Proof. intros e c p. reflexivity. Qed.

(** [lndcal] fails on a pre-collection scene: the run returns [ERROR] from
    the XML directory [/data] and is back in [/home/espa]. *)
Lemma runLedaps_restores_cwd_witness :
  fst (runLedaps Sim.os (Some "/data/LT50290302007097PAC01.xml") "True"
         (Sim.world (Sim.machine_of Sim.lndcal_fails) "/home/espa"))
  = Return ERROR /\
  cwd (snd (runLedaps Sim.os (Some "/data/LT50290302007097PAC01.xml") "True"
              (Sim.world (Sim.machine_of Sim.lndcal_fails) "/home/espa")))
  = "/home/espa".
Proof.
  split; [reflexivity|].
  apply (proj1 (runLedaps_restores_cwd Sim.os
                  (Some "/data/LT50290302007097PAC01.xml") "True"
                  (Sim.world (Sim.machine_of Sim.lndcal_fails) "/home/espa")
                  _ _ (surjective_pairing _))).
  vm_compute. discriminate.
Defined.

(** The same run: [lndcal], second of two commands, comes back with status
    256, exit code 1; nothing follows it and the run returns [ERROR]. *)
Lemma runLedaps_first_failure_witness :
  invoked (snd (runLedaps Sim.os (Some "/data/LT50290302007097PAC01.xml") "True"
                  (Sim.world (Sim.machine_of Sim.lndcal_fails) "/home/espa")))
  = [("lndpm --xml LT50290302007097PAC01.xml --process_sr=true", 0);
     ("lndcal --pfile lndcal.LT50290302007097PAC01.txt ", 256)] /\
  (Z.shiftr 256 8 <> 0 <->
   @nil (string * Z) = [] /\
   fst (runLedaps Sim.os (Some "/data/LT50290302007097PAC01.xml") "True"
          (Sim.world (Sim.machine_of Sim.lndcal_fails) "/home/espa"))
   = Return ERROR).
Proof.
  split; [reflexivity|].
  apply (proj2 (runLedaps_first_failure Sim.os
                  (Some "/data/LT50290302007097PAC01.xml") "True"
                  (Sim.world (Sim.machine_of Sim.lndcal_fails) "/home/espa")
                  _ _
                  [("lndpm --xml LT50290302007097PAC01.xml --process_sr=true", 0)]
                  "lndcal --pfile lndcal.LT50290302007097PAC01.txt " 256 []
                  (surjective_pairing _) eq_refl)).
  exact sim_chdir_permitted.
Defined.

(** A collection scene opens with [create_landsat_angle_bands]. *)
Lemma runLedaps_scene_class_witness :
  reaches_naming_check Sim.os
    "/data/LE07_L1TP_029030_20070407_20160912_01_T1.xml"
    (Sim.world (Sim.machine_of Sim.all_succeed) "/home/espa") /\
  exists status t',
    invoked (snd (runLedaps Sim.os
                    (Some "/data/LE07_L1TP_029030_20070407_20160912_01_T1.xml")
                    "False"
                    (Sim.world (Sim.machine_of Sim.all_succeed) "/home/espa")))
    = ("create_landsat_angle_bands --xml LE07_L1TP_029030_20070407_20160912_01_T1.xml",
       status) :: t'.
Proof.
  assert (Hreach : reaches_naming_check Sim.os
            "/data/LE07_L1TP_029030_20070407_20160912_01_T1.xml"
            (Sim.world (Sim.machine_of Sim.all_succeed) "/home/espa"))
    by (repeat split).
  split; [exact Hreach|].
  destruct (runLedaps_scene_class Sim.os
              (Some "/data/LE07_L1TP_029030_20070407_20160912_01_T1.xml")
              "False"
              (Sim.world (Sim.machine_of Sim.all_succeed) "/home/espa")
              "/data/LE07_L1TP_029030_20070407_20160912_01_T1.xml" "False"
              _ _ eq_refl Hreach (surjective_pairing _))
    as (t & Ht & _ & [Hcoll _] & _).
  destruct (Hcoll (or_intror (or_intror eq_refl)))
    as (cmd & status & t' & -> & ->).
  exists status, t'. exact Ht.
Defined.

(** [process_sr] is ["true"], not ["True"]: [lndpm] gets
    [--process_sr=false]. *)
Lemma runLedaps_process_sr_witness :
  command_line_args Sim.os (Some "/data/LT50290302007097PAC01.xml") "true"
    (Sim.world (Sim.machine_of Sim.all_succeed) "/home/espa")
  = (Return ("/data/LT50290302007097PAC01.xml", "true"),
     Sim.world (Sim.machine_of Sim.all_succeed) "/home/espa") /\
  invoked (snd (runLedaps Sim.os (Some "/data/LT50290302007097PAC01.xml") "true"
                  (Sim.world (Sim.machine_of Sim.all_succeed) "/home/espa")))
  = [("lndpm --xml LT50290302007097PAC01.xml --process_sr=false", 0);
     ("lndcal --pfile lndcal.LT50290302007097PAC01.txt ", 0)] /\
  "lndpm --xml LT50290302007097PAC01.xml --process_sr=false"
  = "lndpm --xml " ++ Py.basename "/data/LT50290302007097PAC01.xml"
      ++ " --process_sr=false".
Proof.
  split; [reflexivity|]. split; [reflexivity|].
  apply (proj1 (proj2 (runLedaps_process_sr Sim.os
           (Some "/data/LT50290302007097PAC01.xml") "true"
           (Sim.world (Sim.machine_of Sim.all_succeed) "/home/espa")
           "/data/LT50290302007097PAC01.xml" "true" _ _
           [("lndpm --xml LT50290302007097PAC01.xml --process_sr=false", 0);
            ("lndcal --pfile lndcal.LT50290302007097PAC01.txt ", 0)]
           eq_refl (surjective_pairing _) eq_refl))
         "lndpm --xml LT50290302007097PAC01.xml --process_sr=false" 0).
  - left. reflexivity.
  - reflexivity.
  - discriminate.
Defined.

(** A pre-collection scene, SR requested, every stage succeeding. *)
Lemma runLedaps_stage_matrix_witness :
  reaches_naming_check Sim.os "/data/LT50290302007097PAC01.xml"
    (Sim.world (Sim.machine_of Sim.all_succeed) "/home/espa") /\
  Forall (fun cs => Z.shiftr (snd cs) 8 = 0)
    [("lndpm --xml LT50290302007097PAC01.xml --process_sr=true", 0);
     ("lndcal --pfile lndcal.LT50290302007097PAC01.txt ", 0);
     ("lndsr --pfile lndsr.LT50290302007097PAC01.txt ", 0);
     ("lndsrbm.py -f lndsr.LT50290302007097PAC01.txt", 0)] /\
  map (fun cs => program (fst cs))
    [("lndpm --xml LT50290302007097PAC01.xml --process_sr=true", 0);
     ("lndcal --pfile lndcal.LT50290302007097PAC01.txt ", 0);
     ("lndsr --pfile lndsr.LT50290302007097PAC01.txt ", 0);
     ("lndsrbm.py -f lndsr.LT50290302007097PAC01.txt", 0)]
  = ["lndpm"; "lndcal"; "lndsr"; "lndsrbm.py"].
Proof.
  assert (Hreach : reaches_naming_check Sim.os "/data/LT50290302007097PAC01.xml"
            (Sim.world (Sim.machine_of Sim.all_succeed) "/home/espa"))
    by (repeat split).
  assert (Hall : Forall (fun cs : string * Z => Z.shiftr (snd cs) 8 = 0)
            [("lndpm --xml LT50290302007097PAC01.xml --process_sr=true", 0);
             ("lndcal --pfile lndcal.LT50290302007097PAC01.txt ", 0);
             ("lndsr --pfile lndsr.LT50290302007097PAC01.txt ", 0);
             ("lndsrbm.py -f lndsr.LT50290302007097PAC01.txt", 0)])
    by (repeat constructor).
  split; [exact Hreach|]. split; [exact Hall|].
  assert (Hinv :
    invoked (snd (runLedaps Sim.os (Some "/data/LT50290302007097PAC01.xml")
                    "True"
                    (Sim.world (Sim.machine_of Sim.all_succeed) "/home/espa")))
    = (invoked (Sim.world (Sim.machine_of Sim.all_succeed) "/home/espa")
       ++ [("lndpm --xml LT50290302007097PAC01.xml --process_sr=true", 0);
           ("lndcal --pfile lndcal.LT50290302007097PAC01.txt ", 0);
           ("lndsr --pfile lndsr.LT50290302007097PAC01.txt ", 0);
           ("lndsrbm.py -f lndsr.LT50290302007097PAC01.txt", 0)])%list)
    by (vm_compute; reflexivity).
  apply (proj1 (runLedaps_stage_matrix Sim.os
           (Some "/data/LT50290302007097PAC01.xml") "True"
           (Sim.world (Sim.machine_of Sim.all_succeed) "/home/espa")
           "/data/LT50290302007097PAC01.xml" "True" _ _ _
           eq_refl Hreach (surjective_pairing _) Hinv Hall)).
  - right. left. vm_compute. reflexivity.
  - reflexivity.
Defined.

(** A collection scene: [lndcal] carries the flag as its last argument. *)
Lemma runLedaps_collection_flag_witness :
  invoked (snd (runLedaps Sim.os
                  (Some "/data/LE07_L1TP_029030_20070407_20160912_01_T1.xml")
                  "False"
                  (Sim.world (Sim.machine_of Sim.all_succeed) "/home/espa")))
  = [("create_landsat_angle_bands --xml LE07_L1TP_029030_20070407_20160912_01_T1.xml", 0);
     ("lndpm --xml LE07_L1TP_029030_20070407_20160912_01_T1.xml --process_sr=false", 0);
     ("lndcal --pfile lndcal.LE07_L1TP_029030_20070407_20160912_01_T1.txt --process_collection", 0)] /\
  words "lndcal --pfile lndcal.LE07_L1TP_029030_20070407_20160912_01_T1.txt --process_collection"
  = ["lndcal"; "--pfile"; "lndcal.LE07_L1TP_029030_20070407_20160912_01_T1.txt";
     "--process_collection"].
Proof.
  assert (Hinv :
    invoked (snd (runLedaps Sim.os
                    (Some "/data/LE07_L1TP_029030_20070407_20160912_01_T1.xml")
                    "False"
                    (Sim.world (Sim.machine_of Sim.all_succeed) "/home/espa")))
    = (invoked (Sim.world (Sim.machine_of Sim.all_succeed) "/home/espa")
       ++ [("create_landsat_angle_bands --xml LE07_L1TP_029030_20070407_20160912_01_T1.xml", 0);
           ("lndpm --xml LE07_L1TP_029030_20070407_20160912_01_T1.xml --process_sr=false", 0);
           ("lndcal --pfile lndcal.LE07_L1TP_029030_20070407_20160912_01_T1.txt --process_collection", 0)])%list)
    by (vm_compute; reflexivity).
  split; [exact Hinv|].
  assert (Hprog :
    program "lndcal --pfile lndcal.LE07_L1TP_029030_20070407_20160912_01_T1.txt --process_collection"
    = "lndcal") by (vm_compute; reflexivity).
  assert (Hcoll :
    Py.slice_to 4
      (Py.basename "/data/LE07_L1TP_029030_20070407_20160912_01_T1.xml")
    = "LE07") by (vm_compute; reflexivity).
  destruct (runLedaps_collection_flag Sim.os
              (Some "/data/LE07_L1TP_029030_20070407_20160912_01_T1.xml")
              "False"
              (Sim.world (Sim.machine_of Sim.all_succeed) "/home/espa")
              "/data/LE07_L1TP_029030_20070407_20160912_01_T1.xml" "False"
              _ _ _
              "lndcal --pfile lndcal.LE07_L1TP_029030_20070407_20160912_01_T1.txt --process_collection"
              0 eq_refl (surjective_pairing _) Hinv
              (or_intror (or_intror (or_introl eq_refl)))
              (or_introl Hprog)) as [Hflag _].
  destruct (Hflag (or_intror (or_intror Hcoll))) as [_ Hwords].
  rewrite Hwords. vm_compute. reflexivity.
Defined.

(** 2012 is a leap year and not the current one: a scan has 366 entries. *)
Lemma findAncillary_length_witness :
  environ_get Sim.os (Sim.machine_of Sim.all_succeed) "ANC_PATH" = Some "/anc" /\
  exists l,
    findAncillary Sim.os 2012 (-99)
      (Sim.world (Sim.machine_of Sim.all_succeed) "/home/espa")
    = (Return (Some l), Sim.world (Sim.machine_of Sim.all_succeed) "/home/espa") /\
    List.length l = 366%nat.
Proof.
  split; [reflexivity|].
  destruct (findAncillary_length Sim.os 2012 (-99)
              (Sim.world (Sim.machine_of Sim.all_succeed) "/home/espa")
              "/anc" eq_refl) as (l & Hrun & _ & _ & Hleap & _).
  exists l. split; [exact Hrun|].
  apply Hleap; [reflexivity|discriminate|].
  split; [reflexivity|discriminate].
Defined.

(** Both files of day 45 of 2013 are there, and of no other day: entry 44
    of the scan is true, entry 43 is false. *)
Lemma findAncillary_entries_witness :
  environ_get Sim.os (Sim.machine_of Sim.all_succeed) "ANC_PATH" = Some "/anc" /\
  exists l,
    findAncillary Sim.os 2013 (-99)
      (Sim.world (Sim.machine_of Sim.all_succeed) "/home/espa")
    = (Return (Some l), Sim.world (Sim.machine_of Sim.all_succeed) "/home/espa") /\
    List.length l = 365%nat /\
    nth_error l 44 = Some true /\
    nth_error l 43 = Some false.
Proof.
  split; [reflexivity|].
  destruct (findAncillary_entries Sim.os 2013 (-99)
              (Sim.world (Sim.machine_of Sim.all_succeed) "/home/espa")
              "/anc" eq_refl (or_introl eq_refl))
    as (l & Hrun & Hlen & Hscan & _).
  exists l. split; [exact Hrun|]. split; [exact Hlen|].
  assert (H44 : (44 < List.length l)%nat) by (rewrite Hlen; vm_compute; lia).
  assert (H43 : (43 < List.length l)%nat) by (rewrite Hlen; vm_compute; lia).
  split.
  - rewrite (Hscan eq_refl 44%nat H44). reflexivity.
  - rewrite (Hscan eq_refl 43%nat H43). reflexivity.
Defined.

(** Day 400 is taken as it is: one entry, for the files of "day 400". *)
Lemma findAncillary_no_range_check_witness :
  environ_get Sim.os (Sim.machine_of Sim.all_succeed) "ANC_PATH" = Some "/anc" /\
  findAncillary Sim.os 2013 400
    (Sim.world (Sim.machine_of Sim.all_succeed) "/home/espa")
  = (Return (Some [false]),
     Sim.world (Sim.machine_of Sim.all_succeed) "/home/espa") /\
  ncepFile "/anc" 2013 (dayofyear 400)
  = "/anc/REANALYSIS/RE_2013/REANALYSIS_2013400.hdf".
Proof.
  split; [reflexivity|]. split; [|reflexivity].
  apply (proj1 (findAncillary_no_range_check Sim.os 2013
                  (Sim.world (Sim.machine_of Sim.all_succeed) "/home/espa")
                  "/anc" eq_refl) 400).
  discriminate.
Defined.

(** *** More runs *)

(** A name of neither convention: [ERROR], no command, and the process is
    back where it was. *)
Example runLedaps_unrecognised_name :
  fst (runLedaps Sim.os (Some "/data/XX1_foo.xml") "True"
         (Sim.world (Sim.machine_of Sim.all_succeed) "/home/espa"))
  = Return ERROR /\
  invoked (snd (runLedaps Sim.os (Some "/data/XX1_foo.xml") "True"
                  (Sim.world (Sim.machine_of Sim.all_succeed) "/home/espa")))
  = [] /\
  cwd (snd (runLedaps Sim.os (Some "/data/XX1_foo.xml") "True"
              (Sim.world (Sim.machine_of Sim.all_succeed) "/home/espa")))
  = "/home/espa".
Proof. vm_compute. repeat split. Qed.

(** A file that is not there: [ERROR] before anything is run. *)
Example runLedaps_missing_file :
  fst (runLedaps Sim.os (Some "/data/LT5_absent.xml") "True"
         (Sim.world (Sim.machine_of Sim.all_succeed) "/home/espa"))
  = Return ERROR /\
  invoked (snd (runLedaps Sim.os (Some "/data/LT5_absent.xml") "True"
                  (Sim.world (Sim.machine_of Sim.all_succeed) "/home/espa")))
  = [].
Proof. vm_compute. repeat split. Qed.

(** With no [xmlfile] argument the command line decides: here it names the
    file and has no [--process_sr], so SR is processed whatever the
    [process_sr] argument. *)
Example runLedaps_from_command_line :
  map (fun cs => program (fst cs))
    (invoked (snd (runLedaps Sim.os None "False"
                     (Sim.world (Sim.machine_of Sim.all_succeed) "/home/espa"))))
  = ["lndpm"; "lndcal"; "lndsr"; "lndsrbm.py"].
Proof. vm_compute. reflexivity. Qed.

(** The file names and the scene identifier. *)
Example basename_examples :
  Py.basename "/data/LT50290302007097PAC01.xml" = "LT50290302007097PAC01.xml" /\
  Py.basename "LT5basefile.xml" = "LT5basefile.xml" /\
  Py.re_sub_xml "LT5basefile.xml" = "LT5basefile" /\
  Py.re_sub_xml "LT5.xml.xml" = "LT5.xml" /\
  Py.dirname "/data/LT5basefile.xml" = "/data".
Proof. vm_compute. repeat split. Qed.

(** *** The further properties at work *)

Lemma dayofyear_width_witness :
  0 <= 45 <= 999 /\ String.length (dayofyear 45) = 3%nat.
Proof.
  assert (H : 0 <= 45 <= 999) by lia.
  split; [exact H|]. exact (dayofyear_width 45 H).
Defined.

Lemma dayofyear_negative_witness : -5 < 0 /\ dayofyear (-5) = "00-5".
Proof.
  assert (H : -5 < 0) by lia.
  split; [exact H|]. exact (dayofyear_negative (-5) H).
Defined.

Lemma ancillary_files_distinct_witness :
  ncepFile "/anc" 2013 (dayofyear 45) <> ncepFile "/anc" 2013 (dayofyear 46) /\
  tomsFile "/anc" 2013 (dayofyear 45) <> tomsFile "/anc" 2013 (dayofyear 46).
Proof.
  apply ancillary_files_distinct; lia.
Defined.

(** No file at all: the scan of 2013 is 365 times [False]. *)
Lemma findAncillary_uniform_witness :
  environ_get Sim.os Sim.no_files "ANC_PATH" = Some "/anc" /\
  findAncillary Sim.os 2013 (-99) (Sim.world Sim.no_files "/home/espa")
  = (Return (Some (repeat false 365)), Sim.world Sim.no_files "/home/espa").
Proof.
  split; [reflexivity|].
  apply (proj1 (findAncillary_uniform Sim.os 2013 (-99)
                  (Sim.world Sim.no_files "/home/espa") "/anc" eq_refl)).
  intros path. reflexivity.
Defined.

(** Day 45 of 2013: entry 44 of the scan and the single-day answer. *)
Lemma findAncillary_scan_agrees_witness :
  exists l,
    findAncillary Sim.os 2013 (-99)
      (Sim.world (Sim.machine_of Sim.all_succeed) "/home/espa")
    = (Return (Some l), Sim.world (Sim.machine_of Sim.all_succeed) "/home/espa") /\
    findAncillary Sim.os 2013 45
      (Sim.world (Sim.machine_of Sim.all_succeed) "/home/espa")
    = (Return (Some [true]),
       Sim.world (Sim.machine_of Sim.all_succeed) "/home/espa") /\
    nth_error l 44 = Some true.
Proof.
  assert (Hd : 1 <= 45 <= ndays_of Sim.os
                 (Sim.world (Sim.machine_of Sim.all_succeed) "/home/espa")
                 2013 (-99)) by (vm_compute; split; discriminate).
  destruct (findAncillary_scan_agrees Sim.os 2013 45
              (Sim.world (Sim.machine_of Sim.all_succeed) "/home/espa")
              "/anc" eq_refl Hd) as (l & b & Hscan & Hday & Hnth).
  assert (Hb : b = true).
  { assert (E : findAncillary Sim.os 2013 45
                  (Sim.world (Sim.machine_of Sim.all_succeed) "/home/espa")
                = (Return (Some [true]),
                   Sim.world (Sim.machine_of Sim.all_succeed) "/home/espa"))
      by (vm_compute; reflexivity).
    rewrite E in Hday. now injection Hday as <-. }
  subst b. exists l. split; [exact Hscan|]. split; [exact Hday|]. exact Hnth.
Defined.

(** [lndcal] fails: the programs run are the first two of a pipeline. *)
Lemma runLedaps_programs_prefix_witness :
  exists pipeline rest,
    In pipeline
       [ ["lndpm"; "lndcal"];
         ["lndpm"; "lndcal"; "lndsr"; "lndsrbm.py"];
         ["create_landsat_angle_bands"; "lndpm"; "lndcal"];
         ["create_landsat_angle_bands"; "lndpm"; "lndcal"; "lndsr"] ] /\
    pipeline = (["lndpm"; "lndcal"] ++ rest)%list.
Proof.
  assert (Hinv :
    invoked (snd (runLedaps Sim.os (Some "/data/LT50290302007097PAC01.xml")
                    "True"
                    (Sim.world (Sim.machine_of Sim.lndcal_fails) "/home/espa")))
    = (invoked (Sim.world (Sim.machine_of Sim.lndcal_fails) "/home/espa")
       ++ [("lndpm --xml LT50290302007097PAC01.xml --process_sr=true", 0);
           ("lndcal --pfile lndcal.LT50290302007097PAC01.txt ", 256)])%list)
    by (vm_compute; reflexivity).
  exact (runLedaps_programs_prefix Sim.os
           (Some "/data/LT50290302007097PAC01.xml") "True"
           (Sim.world (Sim.machine_of Sim.lndcal_fails) "/home/espa")
           _ _ _ (surjective_pairing _) Hinv).
Defined.

(** A pre-collection scene, SR requested, every stage succeeding. *)
Lemma runLedaps_success_witness :
  runLedaps Sim.os (Some "/data/LT50290302007097PAC01.xml") "True"
    (Sim.world (Sim.machine_of Sim.all_succeed) "/home/espa")
  = (Return SUCCESS,
     snd (runLedaps Sim.os (Some "/data/LT50290302007097PAC01.xml") "True"
            (Sim.world (Sim.machine_of Sim.all_succeed) "/home/espa"))) /\
  cwd (snd (runLedaps Sim.os (Some "/data/LT50290302007097PAC01.xml") "True"
              (Sim.world (Sim.machine_of Sim.all_succeed) "/home/espa")))
  = "/home/espa".
Proof.
  assert (Hrun :
    runLedaps Sim.os (Some "/data/LT50290302007097PAC01.xml") "True"
      (Sim.world (Sim.machine_of Sim.all_succeed) "/home/espa")
    = (Return SUCCESS,
       snd (runLedaps Sim.os (Some "/data/LT50290302007097PAC01.xml") "True"
              (Sim.world (Sim.machine_of Sim.all_succeed) "/home/espa"))))
    by (vm_compute; reflexivity).
  assert (Hinv :
    invoked (snd (runLedaps Sim.os (Some "/data/LT50290302007097PAC01.xml")
                    "True"
                    (Sim.world (Sim.machine_of Sim.all_succeed) "/home/espa")))
    = (invoked (Sim.world (Sim.machine_of Sim.all_succeed) "/home/espa")
       ++ [("lndpm --xml LT50290302007097PAC01.xml --process_sr=true", 0);
           ("lndcal --pfile lndcal.LT50290302007097PAC01.txt ", 0);
           ("lndsr --pfile lndsr.LT50290302007097PAC01.txt ", 0);
           ("lndsrbm.py -f lndsr.LT50290302007097PAC01.txt", 0)])%list)
    by (vm_compute; reflexivity).
  split; [exact Hrun|].
  exact (proj1 (proj2 (runLedaps_success Sim.os
           (Some "/data/LT50290302007097PAC01.xml") "True"
           (Sim.world (Sim.machine_of Sim.all_succeed) "/home/espa")
           SUCCESS _ _ Hrun Hinv) eq_refl)).
Defined.

(** [lndpm] is killed by signal 9, status 9: the run goes on to [lndcal]. *)
Lemma runLedaps_low_status_witness :
  invoked (snd (runLedaps Sim.os (Some "/data/LT50290302007097PAC01.xml")
                  "False"
                  (Sim.world (Sim.machine_of Sim.lndpm_killed) "/home/espa")))
  = [("lndpm --xml LT50290302007097PAC01.xml --process_sr=false", 9);
     ("lndcal --pfile lndcal.LT50290302007097PAC01.txt ", 0)] /\
  ([("lndcal --pfile lndcal.LT50290302007097PAC01.txt ", 0)] <> [] \/
   fst (runLedaps Sim.os (Some "/data/LT50290302007097PAC01.xml") "False"
          (Sim.world (Sim.machine_of Sim.lndpm_killed) "/home/espa"))
   = Return SUCCESS \/
   fst (runLedaps Sim.os (Some "/data/LT50290302007097PAC01.xml") "False"
          (Sim.world (Sim.machine_of Sim.lndpm_killed) "/home/espa"))
   = Raise OSError).
Proof.
  assert (Hinv :
    invoked (snd (runLedaps Sim.os (Some "/data/LT50290302007097PAC01.xml")
                    "False"
                    (Sim.world (Sim.machine_of Sim.lndpm_killed) "/home/espa")))
    = (invoked (Sim.world (Sim.machine_of Sim.lndpm_killed) "/home/espa")
       ++ [] ++
       ("lndpm --xml LT50290302007097PAC01.xml --process_sr=false", 9)
       :: [("lndcal --pfile lndcal.LT50290302007097PAC01.txt ", 0)])%list)
    by (vm_compute; reflexivity).
  split; [exact Hinv|].
  apply (proj1 (runLedaps_low_status Sim.os
           (Some "/data/LT50290302007097PAC01.xml") "False"
           (Sim.world (Sim.machine_of Sim.lndpm_killed) "/home/espa")
           _ _ _ _ _ _ (surjective_pairing _) Hinv)).
  lia.
Defined.

(** A file that is not there. *)
Lemma runLedaps_early_error_witness :
  isfile Sim.os (Sim.machine_of Sim.all_succeed) "/home/espa"
    "/data/LT5_absent.xml" = false /\
  exists l msg,
    runLedaps Sim.os (Some "/data/LT5_absent.xml") "True"
      (Sim.world (Sim.machine_of Sim.all_succeed) "/home/espa")
    = (Return ERROR,
       {| env := Sim.machine_of Sim.all_succeed : Env Sim.os;
          cwd := "/home/espa"; invoked := [];
          logged := (l ++ [(LOG_ERROR, msg)])%list |}).
Proof.
  assert (Hfile : isfile Sim.os (Sim.machine_of Sim.all_succeed) "/home/espa"
                    "/data/LT5_absent.xml" = false) by (vm_compute; reflexivity).
  split; [exact Hfile|].
  exact (runLedaps_early_error Sim.os (Some "/data/LT5_absent.xml") "True"
           (Sim.world (Sim.machine_of Sim.all_succeed) "/home/espa")
           "/data/LT5_absent.xml" "True" eq_refl (or_introl Hfile)).
Defined.

(** The failing run ends its log with an error line. *)
Lemma runLedaps_last_log_witness :
  exists l msg,
    logged (snd (runLedaps Sim.os (Some "/data/LT50290302007097PAC01.xml")
                   "True"
                   (Sim.world (Sim.machine_of Sim.lndcal_fails) "/home/espa")))
    = (l ++ [(LOG_ERROR, msg)])%list.
Proof.
  assert (Hrun :
    runLedaps Sim.os (Some "/data/LT50290302007097PAC01.xml") "True"
      (Sim.world (Sim.machine_of Sim.lndcal_fails) "/home/espa")
    = (Return ERROR,
       snd (runLedaps Sim.os (Some "/data/LT50290302007097PAC01.xml") "True"
              (Sim.world (Sim.machine_of Sim.lndcal_fails) "/home/espa"))))
    by (vm_compute; reflexivity).
  destruct (runLedaps_last_log Sim.os _ _ _ _ _ Hrun)
    as (l & lvl & msg & Hlog & [[_ Hlvl]|[Hc _]]).
  - subst lvl. exists l, msg. exact Hlog.
  - discriminate Hc.
Defined.

(** The commands of the successful pre-collection run. *)
Lemma runLedaps_success_commands_witness :
  map fst
    (invoked (snd (runLedaps Sim.os (Some "/data/LT50290302007097PAC01.xml")
                     "True"
                     (Sim.world (Sim.machine_of Sim.all_succeed) "/home/espa"))))
  = ["lndpm --xml LT50290302007097PAC01.xml --process_sr=true";
     "lndcal --pfile lndcal.LT50290302007097PAC01.txt ";
     "lndsr --pfile lndsr.LT50290302007097PAC01.txt ";
     "lndsrbm.py -f lndsr.LT50290302007097PAC01.txt"].
Proof.
  assert (Hrun :
    runLedaps Sim.os (Some "/data/LT50290302007097PAC01.xml") "True"
      (Sim.world (Sim.machine_of Sim.all_succeed) "/home/espa")
    = (Return SUCCESS,
       snd (runLedaps Sim.os (Some "/data/LT50290302007097PAC01.xml") "True"
              (Sim.world (Sim.machine_of Sim.all_succeed) "/home/espa"))))
    by (vm_compute; reflexivity).
  assert (Hinv :
    invoked (snd (runLedaps Sim.os (Some "/data/LT50290302007097PAC01.xml")
                    "True"
                    (Sim.world (Sim.machine_of Sim.all_succeed) "/home/espa")))
    = (invoked (Sim.world (Sim.machine_of Sim.all_succeed) "/home/espa")
       ++ invoked (snd (runLedaps Sim.os
                          (Some "/data/LT50290302007097PAC01.xml") "True"
                          (Sim.world (Sim.machine_of Sim.all_succeed)
                                     "/home/espa"))))%list)
    by (vm_compute; reflexivity).
  rewrite (runLedaps_success_commands Sim.os
             (Some "/data/LT50290302007097PAC01.xml") "True"
             (Sim.world (Sim.machine_of Sim.all_succeed) "/home/espa")
             "/data/LT50290302007097PAC01.xml" "True" _ _ eq_refl Hrun Hinv).
  vm_compute. reflexivity.
Defined.


(** The file [/data/LT] is there, but its name is too short to be a scene
    name. *)
Lemma runLedaps_short_name_witness :
  (String.length (Py.basename "/data/LT") < 3)%nat /\
  invoked (snd (runLedaps Sim.os (Some "/data/LT") "True"
                  (Sim.world Sim.short_name "/home/espa")))
  = [] /\
  fst (runLedaps Sim.os (Some "/data/LT") "True"
         (Sim.world Sim.short_name "/home/espa"))
  <> Return SUCCESS.
Proof.
  assert (Hshort : (String.length (Py.basename "/data/LT") < 3)%nat)
    by (vm_compute; lia).
  split; [exact Hshort|].
  exact (runLedaps_short_name Sim.os (Some "/data/LT") "True"
           (Sim.world Sim.short_name "/home/espa") "/data/LT" "True" _ _
           eq_refl (surjective_pairing _) Hshort).
Defined.
